(** * Audit trail of the task model (src/models/Task.js)

    A shallow embedding of the Mongoose hooks that write the task audit
    trail, of the audit-log schema they write to, of the actor context the
    task controller hands to them, and of the read side of the audit log.

    The hooks are embedded as they are written: each hook is a function of
    the document (or query object) the framework passes to it, and runs in a
    small state-and-exception monad over the audit collection, the console
    and the clock.  What the document reports when the hook runs ([isNew],
    [isModified], its stored values) is input to the hook; the three
    pathways put the hooks together in the order Mongoose runs them. *)

From Stdlib Require Import ZArith Ascii String List Bool.
From stdpp Require Import base option gmap strings list pretty.
Import ListNotations.

Local Open Scope string_scope.
Local Open Scope list_scope.
Local Open Scope Z_scope.

(** ** JavaScript values *)

(** The values that audited fields, identifiers and payload properties take.
    An [ObjectId] is an object: it lives at a heap reference [ref] and holds
    an identifier written [hex].  Numbers are the integral ones. *)
Inductive JsValue : Type :=
| JUndefined
| JNull
| JBool (b : bool)
| JNum (n : Z)
| JStr (s : string)
| JObjectId (ref : nat) (hex : string).

#[global] Instance JsValue_eq_dec : EqDecision JsValue.
Proof. solve_decision. Defined.

(** [a === b]: primitives compare by type and value, objects by identity. *)
Definition strictEq (a b : JsValue) : bool :=
  match a, b with
  | JUndefined, JUndefined => true
  | JNull, JNull => true
  | JBool x, JBool y => Bool.eqb x y
  | JNum x, JNum y => Z.eqb x y
  | JStr x, JStr y => String.eqb x y
  | JObjectId r1 _, JObjectId r2 _ => Nat.eqb r1 r2
  | _, _ => false
  end.

(** [a !== b] *)
Definition strictNe (a b : JsValue) : bool := negb (strictEq a b).

(** Truthiness, as [if (v)], [!v] and [v || w] test it. *)
Definition truthy (v : JsValue) : bool :=
  match v with
  | JUndefined | JNull => false
  | JBool b => b
  | JNum n => negb (Z.eqb n 0)
  | JStr s => negb (String.eqb s "")
  | JObjectId _ _ => true
  end.

(** [a || b] on values. *)
Definition jsOr (a b : JsValue) : JsValue := if truthy a then a else b.

(** A plain object used as a map from property names to values;
    reading a missing property gives [undefined]. *)
Definition prop (o : gmap string JsValue) (field : string) : JsValue :=
  default JUndefined (o !! field).

(** ** The actor context and its carriers *)

Module UserContext.
Record t : Type := mk { id : JsValue; name : JsValue; role : JsValue }.
End UserContext.

(** [doc.$locals] *)
Module Locals.
Record t : Type := mk { auditUser : option UserContext.t }.
End Locals.

(** The options bag of a query ([this.getOptions()]). *)
Module Options.
Record t : Type := mk {
  new : bool;
  runValidators : bool;
  auditUser : option UserContext.t
}.
End Options.

(** ** Task documents and queries, as the hooks see them *)

Record Document : Type := mkDocument {
  _id : JsValue;
  _doc : gmap string JsValue;      (* the stored value of each path *)
  isNew : bool;                    (* doc.isNew *)
  modifiedPaths : gset string;     (* the paths marked modified *)
  locals : option Locals.t         (* doc.$locals *)
}.

(** [doc[field]]: the Task schema declares no getter, so the property reads
    the stored value. *)
Definition field (doc : Document) (f : string) : JsValue := prop (_doc doc) f.

(** [doc.get(field, null, { getters: false })]: the value of the path,
    without applying getters. *)
Definition get (doc : Document) (f : string) : JsValue := prop (_doc doc) f.

(** [doc.isModified(field)] *)
Definition isModified (doc : Document) (f : string) : bool :=
  bool_decide (f ∈ modifiedPaths doc).

(** [doc[f] = v] on a loaded document: the path takes the value and is
    marked modified. *)
Definition assign (doc : Document) (f : string) (v : JsValue) : Document :=
  {| _id := _id doc;
     _doc := <[f := v]> (_doc doc);
     isNew := isNew doc;
     modifiedPaths := {[ f ]} ∪ modifiedPaths doc;
     locals := locals doc |}.

(** The update of an atomic update ([this.getUpdate()]): its [$set]
    directive, when it has one, and its own top-level properties. *)
Record Update : Type := mkUpdate {
  u_set : option (gmap string JsValue);
  u_top : gmap string JsValue
}.

(** The query object a query hook runs on ([this]). *)
Record Query : Type := mkQuery {
  getQuery : gmap string JsValue;
  getOptions : option Options.t;
  getUpdate : Update;
  _originalDoc : option Document;
  _deletedDoc : option Document
}.

(** ** The audit log (TaskHistory schema) *)

(** [change_type: { enum: ['create', 'update', 'delete'] }] *)
Inductive ChangeType : Type := create | update | delete.

#[global] Instance ChangeType_eq_dec : EqDecision ChangeType.
Proof. solve_decision. Defined.

Record LogEntry : Type := mkLog {
  field_name : string;
  from_value : JsValue;
  to_value : JsValue
}.

Module CreatedBy.
Record t : Type := mk { id : JsValue; name : JsValue; role : JsValue }.
End CreatedBy.

Record AuditRecord : Type := mkAudit {
  model : string;
  model_id : JsValue;
  change_type : ChangeType;
  logs : list LogEntry;
  created_by : option CreatedBy.t;
  created_at : Z
}.

(** The selection of a read of the audit log. *)
Record HistoryQuery : Type := mkHistoryQuery {
  q_model : option string;
  q_model_id : option string;
  q_created_by_id : option string;
  q_change_type : option string
}.

(** The operations a Mongoose model offers on the audit collection.  The
    code below issues [HCreate], [HCountDocuments] and [HFind]; the other
    three are the operations that would rewrite or remove a stored record. *)
Inductive HistoryOp : Type :=
| HCreate (r : AuditRecord)
| HCountDocuments (q : HistoryQuery)
| HFind (q : HistoryQuery) (skip limit : option Z)
| HUpdate (q : HistoryQuery) (r : AuditRecord)
| HReplace (q : HistoryQuery) (r : AuditRecord)
| HDelete (q : HistoryQuery).

Definition appends (op : HistoryOp) : bool :=
  match op with HCreate _ => true | _ => false end.

Definition queries (op : HistoryOp) : bool :=
  match op with HCountDocuments _ | HFind _ _ _ => true | _ => false end.

Definition rewrites (op : HistoryOp) : bool :=
  match op with HUpdate _ _ | HReplace _ _ | HDelete _ => true | _ => false end.

(** ** The effects of a hook *)

Record JsError : Type := mkError { message : string }.

Record World : Type := mkWorld {
  task_histories : list AuditRecord;      (* the audit collection *)
  issued : list HistoryOp;                (* operations issued on it, oldest first *)
  console : list (string * JsError);      (* console.error lines *)
  clock : Z                               (* what new Date() reads *)
}.

Inductive Result (A : Type) : Type :=
| Ok (a : A)
| Throw (e : JsError).
Arguments Ok {A} a.
Arguments Throw {A} e.

(** A computation reads and changes the world and returns or throws. *)
Definition M (A : Type) : Type := World -> Result A * World.

#[global] Instance M_ret : MRet M := fun A a w => (Ok a, w).

#[global] Instance M_bind : MBind M := fun A B k c w =>
  match c w with
  | (Ok a, w') => k a w'
  | (Throw e, w') => (Throw e, w')
  end.

(** [try { body } catch (error) { handler }] *)
Definition tryCatch {A} (body : M A) (handler : JsError -> M A) : M A :=
  fun w =>
    match body w with
    | (Ok a, w') => (Ok a, w')
    | (Throw e, w') => handler e w'
    end.

(** [console.error(label, error)] *)
Definition console_error (label : string) (error : JsError) : M unit :=
  fun w =>
    (Ok tt, {| task_histories := task_histories w;
               issued := issued w;
               console := console w ++ [(label, error)];
               clock := clock w |}).

(** [new Date()] *)
Definition newDate : M Z := fun w => (Ok (clock w), w).

(** How the store answers an insert: [None] when it takes the record,
    [Some e] when the insert raises [e] (validation, connection, ...). *)
Definition Backend : Type := list AuditRecord -> AuditRecord -> option JsError.

(** [await TaskHistory.create(r)] *)
Definition TaskHistory_create (be : Backend) (r : AuditRecord) : M unit :=
  fun w =>
    match be (task_histories w) r with
    | Some e =>
        (Throw e, {| task_histories := task_histories w;
                     issued := issued w ++ [HCreate r];
                     console := console w;
                     clock := clock w |})
    | None =>
        (Ok tt, {| task_histories := task_histories w ++ [r];
                   issued := issued w ++ [HCreate r];
                   console := console w;
                   clock := clock w |})
    end.

(** What a hook tells the framework when it is done: [next()] or
    [next(err)]. *)
Inductive Signal : Type := NextCalled (err : option JsError).

(** [next()] *)
Definition next : M Signal := mret (NextCalled None).

(** What the caller of the primary mutation gets, from the mutation's own
    result [primary] and the outcome of the after-phase hook. *)
Definition delivered {A} (primary : A) (hook : Result Signal) : Result A :=
  match hook with
  | Ok (NextCalled None) => Ok primary
  | Ok (NextCalled (Some e)) => Throw e
  | Throw e => Throw e
  end.

(** ** The hooks of the task schema *)

(** [const auditFields = ['title', 'description', 'completed', 'owner']] *)
Definition auditFields : list string :=
  ["title"; "description"; "completed"; "owner"].

(** [l.forEach(f)] where [f] pushes onto an accumulator. *)
Definition forEach {A B} (l : list A) (f : B -> A -> B) (init : B) : B :=
  fold_left f l init.

Definition push {A} (l : list A) (x : A) : list A := l ++ [x].

Definition getChangedFieldsForCreate (doc : Document) : list LogEntry :=
  forEach auditFields (fun logs f =>
    if strictNe (field doc f) JUndefined
    then push logs {| field_name := f; from_value := JNull; to_value := field doc f |}
    else logs) [].

Definition getChangedFieldsForUpdate (doc : Document) : list LogEntry :=
  forEach auditFields (fun logs f =>
    if isModified doc f
    then
      let originalValue := get doc f in
      let newValue := field doc f in
      push logs {| field_name := f; from_value := originalValue; to_value := newValue |}
    else logs) [].

(** [userContext ? { id: ..., name: ..., role: ... } : null] *)
Definition createdBy (userContext : option UserContext.t) : option CreatedBy.t :=
  match userContext with
  | Some u => Some {| CreatedBy.id := UserContext.id u;
                      CreatedBy.name := UserContext.name u;
                      CreatedBy.role := UserContext.role u |}
  | None => None
  end.

(** [taskSchema.post('save', async function (doc, next) { ... })] *)
Definition postSave (be : Backend) (doc : Document) : M Signal :=
  tryCatch
    (let userContext := locals doc ≫= Locals.auditUser in
     let changeType := if isNew doc then create else update in
     let logs :=
       match changeType with
       | create => getChangedFieldsForCreate doc
       | _ => getChangedFieldsForUpdate doc
       end in
     if (0 <? Z.of_nat (length logs)) || bool_decide (changeType = create)
     then
       now ← newDate;
       TaskHistory_create be
         {| model := "Task";
            model_id := _id doc;
            change_type := changeType;
            logs := logs;
            created_by := createdBy userContext;
            created_at := now |}
     else mret tt)
    (fun error => console_error "Error creating audit log:" error) ;;
  next.

(** The new value the update hook compares with, for one audited field:
    [update.$set?.[field] !== undefined ? update.$set[field]
       : update[field] !== undefined ? update[field] : doc[field]] *)
Definition newValue (update : Update) (doc : Document) (f : string) : JsValue :=
  let in_set := match u_set update with Some s => prop s f | None => JUndefined end in
  if strictNe in_set JUndefined then in_set
  else if strictNe (prop (u_top update) f) JUndefined then prop (u_top update) f
  else field doc f.

(** The [auditFields.forEach] of the update hook. *)
Definition updateLogs (originalDoc : Document) (update : Update) (doc : Document)
  : list LogEntry :=
  forEach auditFields (fun logs f =>
    let oldValue := field originalDoc f in
    let newValue := newValue update doc f in
    if strictNe oldValue newValue && strictNe newValue JUndefined
    then push logs {| field_name := f; from_value := oldValue; to_value := newValue |}
    else logs) [].

(** Where a [try] body leaves the function by [return next()], it yields
    [Some] of the signal; [None] when control reaches the end of the block. *)
Definition afterTry (early : option Signal) : M Signal :=
  match early with
  | Some s => mret s
  | None => next
  end.

(** [taskSchema.post(['findOneAndUpdate', 'findOneAndReplace'],
      async function (doc, next) { ... })] *)
Definition postFindOneAndUpdate (be : Backend) (this : Query) (doc : option Document)
  : M Signal :=
  match doc with
  | None => next
  | Some doc =>
      early ← tryCatch
        (let userContext := getOptions this ≫= Options.auditUser in
         match _originalDoc this with
         | None => s ← next; mret (Some s)
         | Some originalDoc =>
             let logs := updateLogs originalDoc (getUpdate this) doc in
             (if 0 <? Z.of_nat (length logs)
              then
                now ← newDate;
                TaskHistory_create be
                  {| model := "Task";
                     model_id := _id doc;
                     change_type := update;
                     logs := logs;
                     created_by := createdBy userContext;
                     created_at := now |}
              else mret tt) ;;
             mret None
         end)
        (fun error => console_error "Error creating audit log:" error ;; mret None);
      afterTry early
  end.

(** The sentinel entry of a delete record. *)
Definition deleteLogs : list LogEntry :=
  [ {| field_name := "status"; from_value := JStr "active"; to_value := JStr "deleted" |} ].

(** [this._deletedDoc || doc] *)
Definition orElse {A} (a b : option A) : option A :=
  match a with Some x => Some x | None => b end.

(** [taskSchema.post(['findOneAndDelete', 'findOneAndRemove'],
      async function (doc, next) { ... })] *)
Definition postFindOneAndDelete (be : Backend) (this : Query) (doc : option Document)
  : M Signal :=
  early ← tryCatch
    (let userContext := getOptions this ≫= Options.auditUser in
     let deletedDoc := orElse (_deletedDoc this) doc in
     match deletedDoc with
     | None => s ← next; mret (Some s)
     | Some deletedDoc =>
         now ← newDate;
         TaskHistory_create be
           {| model := "Task";
              model_id := _id deletedDoc;
              change_type := delete;
              logs := deleteLogs;
              created_by := createdBy userContext;
              created_at := now |} ;;
         mret None
     end)
    (fun error => console_error "Error creating audit log:" error ;; mret None);
  afterTry early.

(** *** The before-phase hooks *)

(** What [this.model.findOne(filter)] answers on the task collection. *)
Definition TaskModel : Type := gmap string JsValue -> Result (option Document).

Definition lift {A} (r : Result A) : M A := fun w => (r, w).

(** [this._originalDoc = await this.model.findOne(this.getQuery())] *)
Definition preFindOneAndUpdate (tasks : TaskModel) (this : Query) : M Query :=
  found ← lift (tasks (getQuery this));
  mret {| getQuery := getQuery this;
          getOptions := getOptions this;
          getUpdate := getUpdate this;
          _originalDoc := found;
          _deletedDoc := _deletedDoc this |}.

(** [this._deletedDoc = await this.model.findOne(this.getQuery())] *)
Definition preFindOneAndDelete (tasks : TaskModel) (this : Query) : M Query :=
  found ← lift (tasks (getQuery this));
  mret {| getQuery := getQuery this;
          getOptions := getOptions this;
          getUpdate := getUpdate this;
          _originalDoc := _originalDoc this;
          _deletedDoc := found |}.

(** *** The three pathways: before-phase, primary mutation, after-phase *)

(** The document as [save()] leaves it once its write has succeeded: Mongoose
    clears [isNew] and the modified paths when the write is sent, before the
    post('save') hooks run (Mongoose API, [Document.prototype.$isNew]: in
    post('save') hooks it is false if [save()] succeeded). *)
Definition afterSave (doc : Document) : Document :=
  {| _id := _id doc;
     _doc := _doc doc;
     isNew := false;
     modifiedPaths := ∅;
     locals := locals doc |}.

(** [doc.save()] whose write has succeeded: the after-phase runs on the
    document as the write left it, and the caller gets the document. *)
Definition saved (be : Backend) (doc : Document) : M Document :=
  let doc := afterSave doc in
  s ← postSave be doc;
  lift (delivered doc (Ok s)).

(** An atomic conditional update; [primary] is what the database answers to
    the update itself.  The before-phase hook runs first and, when it
    raises, ends the operation; the after-phase hook runs on the same query
    object once the update has answered. *)
Definition findOneAndUpdate (tasks : TaskModel) (be : Backend) (this : Query)
    (primary : Result (option Document)) : M (option Document) :=
  this' ← preFindOneAndUpdate tasks this;
  doc ← lift primary;
  s ← postFindOneAndUpdate be this' doc;
  lift (delivered doc (Ok s)).

(** An atomic conditional delete. *)
Definition findOneAndDelete (tasks : TaskModel) (be : Backend) (this : Query)
    (primary : Result (option Document)) : M (option Document) :=
  this' ← preFindOneAndDelete tasks this;
  doc ← lift primary;
  s ← postFindOneAndDelete be this' doc;
  lift (delivered doc (Ok s)).

(** ** The actor context built by the task controller *)

Module User.
Record t : Type := mk { _id : JsValue; email : string; roles : list string }.
End User.

(** [roles[0]] *)
Definition first (roles : list string) : JsValue :=
  match roles with
  | r :: _ => JStr r
  | [] => JUndefined
  end.

(** [{ id: req.user._id, name: req.user.email, role: req.user.roles[0] || 'user' }],
    as createTask, updateTask and deleteTask each build it. *)
Definition auditUser (user : User.t) : UserContext.t :=
  {| UserContext.id := User._id user;
     UserContext.name := JStr (User.email user);
     UserContext.role := jsOr (first (User.roles user)) (JStr "user") |}.

(** createTask: [taskDoc.$locals = { auditUser: {...} }] *)
Definition createTask_attach (user : User.t) (taskDoc : Document) : Document :=
  {| _id := _id taskDoc;
     _doc := _doc taskDoc;
     isNew := isNew taskDoc;
     modifiedPaths := modifiedPaths taskDoc;
     locals := Some {| Locals.auditUser := Some (auditUser user) |} |}.

(** updateTask: [const options = { new: true, runValidators: true, auditUser: {...} }] *)
Definition updateTask_options (user : User.t) : Options.t :=
  {| Options.new := true;
     Options.runValidators := true;
     Options.auditUser := Some (auditUser user) |}.

(** deleteTask: [const options = { auditUser: {...} }] *)
Definition deleteTask_options (user : User.t) : Options.t :=
  {| Options.new := false;
     Options.runValidators := false;
     Options.auditUser := Some (auditUser user) |}.

(** [roles: { enum: ['user', 'admin'] }] of the user schema. *)
Definition validRole (r : string) : Prop := r = "user" \/ r = "admin".

(** ** The read side (audit controller) *)

(** What the database answers to a read of the audit collection. *)
Record Reader : Type := mkReader {
  answerCount : list AuditRecord -> HistoryQuery -> Result Z;
  answerFind : list AuditRecord -> HistoryQuery -> option Z -> option Z
               -> Result (list AuditRecord)
}.

Definition noteIssued (op : HistoryOp) (w : World) : World :=
  {| task_histories := task_histories w;
     issued := issued w ++ [op];
     console := console w;
     clock := clock w |}.

(** [await TaskHistory.countDocuments(query)] *)
Definition TaskHistory_countDocuments (rd : Reader) (q : HistoryQuery) : M Z :=
  fun w => (answerCount rd (task_histories w) q, noteIssued (HCountDocuments q) w).

(** [await TaskHistory.find(query).sort({ created_at: -1 }).skip(skip).limit(limit).lean()];
    [skip] and [limit] are absent where the call chain has none. *)
Definition TaskHistory_find (rd : Reader) (q : HistoryQuery) (skip limit : option Z)
  : M (list AuditRecord) :=
  fun w => (answerFind rd (task_histories w) q skip limit, noteIssued (HFind q skip limit) w).

(** [req.query] of GET /api/audit-logs; [page] and [limit] are what
    [parseInt] made of the parameters, [None] standing for NaN.  Numbers
    are integers here where the code has doubles: the two agree as long as
    the page, the limit, the offset and the count are safe integers
    ([safeInteger] below); a parameter that [parseInt] turns into a larger
    number or into Infinity is not followed by this model. *)
Record AuditLogsRequest : Type := mkAuditLogsRequest {
  rq_model : option string;
  rq_taskId : option string;
  rq_userId : option string;
  rq_changeType : option string;
  rq_page : option Z;
  rq_limit : option Z
}.

Record Pagination : Type := mkPagination {
  page : Z; limit : Z; total : Z; pages : Z
}.

(** What a controller ends with: [successResponse(res, status, message, data)]
    or [next(error)]. *)
Inductive Reply : Type :=
| Success (status : Z) (msg : string) (found : list AuditRecord) (p : option Pagination)
| NextError (e : JsError).

(** [if (req.query.x) query.y = req.query.x] *)
Definition given (s : option string) : option string :=
  match s with
  | Some v => if String.eqb v "" then None else Some v
  | None => None
  end.

(** [parseInt(s) || d] *)
Definition orDefault (parsed : option Z) (d : Z) : Z :=
  match parsed with
  | Some n => if n =? 0 then d else n
  | None => d
  end.

(** [Math.ceil(a / b)] for [b] other than zero. *)
Definition ceilDiv (a b : Z) : Z := - ((- a) / b).

(** [Number.isSafeInteger(n)]: the integers on which the arithmetic of
    doubles is that of the integers. *)
Definition safeInteger (n : Z) : Prop := - 2 ^ 53 < n < 2 ^ 53.

Definition getAuditLogs (rd : Reader) (req : AuditLogsRequest) : M Reply :=
  tryCatch
    (let query := {| q_model := given (rq_model req);
                     q_model_id := given (rq_taskId req);
                     q_created_by_id := given (rq_userId req);
                     q_change_type := given (rq_changeType req) |} in
     let page := orDefault (rq_page req) 1 in
     let limit := orDefault (rq_limit req) 20 in
     let skip := (page - 1) * limit in
     total ← TaskHistory_countDocuments rd query;
     found ← TaskHistory_find rd query (Some skip) (Some limit);
     mret (Success 200 "Audit logs retrieved successfully" found
             (Some {| page := page; limit := limit; total := total;
                      pages := ceilDiv total limit |})))
    (fun error => mret (NextError error)).

Definition getTaskAuditLogs (rd : Reader) (taskId : string) : M Reply :=
  tryCatch
    (found ← TaskHistory_find rd
               {| q_model := None; q_model_id := Some taskId;
                  q_created_by_id := None; q_change_type := None |} None None;
     mret (Success 200 "Task audit logs retrieved successfully" found None))
    (fun error => mret (NextError error)).

(** ** Sequences of operations *)

(** What the outside answers while one operation runs. *)
Record Env : Type := mkEnv {
  backend : Backend;
  tasks : TaskModel;
  reader : Reader
}.

(** The operations of the subsystem: the three mutation pathways, the
    [Task.deleteMany] of deleteUser, for which the task schema registers no
    hook, and the two retrievals.  [Save doc] is a save whose after-phase
    runs on [doc], whatever [doc] reports. *)
Inductive Event : Type :=
| Save (doc : Document)
| FindOneAndUpdate (this : Query) (primary : Result (option Document))
| FindOneAndDelete (this : Query) (primary : Result (option Document))
| DeleteMany (filter : gmap string JsValue)
| GetAuditLogs (req : AuditLogsRequest)
| GetTaskAuditLogs (taskId : string).

Definition step (env : Env) (ev : Event) (w : World) : World :=
  match ev with
  | Save doc => snd (postSave (backend env) doc w)
  | FindOneAndUpdate this primary =>
      snd (findOneAndUpdate (tasks env) (backend env) this primary w)
  | FindOneAndDelete this primary =>
      snd (findOneAndDelete (tasks env) (backend env) this primary w)
  | DeleteMany _ => w
  | GetAuditLogs req => snd (getAuditLogs (reader env) req w)
  | GetTaskAuditLogs taskId => snd (getTaskAuditLogs (reader env) taskId w)
  end.

Fixpoint run (trace : list (Env * Event)) (w : World) : World :=
  match trace with
  | [] => w
  | (env, ev) :: rest => run rest (step env ev w)
  end.

(** The records among a list of issued operations. *)
Definition created (ops : list HistoryOp) : list AuditRecord :=
  omap (fun op => match op with HCreate r => Some r | _ => None end) ops.

(** ** Sample data *)

Definition accepting : Backend := fun _ _ => None.

Definition unreachable : Backend :=
  fun _ _ => Some {| message := "MongoNetworkError" |}.

Definition emptyWorld : World :=
  {| task_histories := []; issued := []; console := []; clock := 1700000000000 |}.

Definition alice : User.t :=
  {| User._id := JObjectId 1 "64b000000000000000000001";
     User.email := "alice@example.com";
     User.roles := ["user"; "admin"] |}.

(** A task as loaded from the collection. *)
Definition milk : Document :=
  {| _id := JObjectId 10 "64b0000000000000000000aa";
     _doc := {[ "title" := JStr "Buy milk";
                "description" := JStr "";
                "completed" := JBool false;
                "owner" := JObjectId 11 "64b000000000000000000001" ]};
     isNew := false;
     modifiedPaths := ∅;
     locals := None |}.

(** The same task as the atomic update returns it after setting
    [completed]: every value is read anew from the database. *)
Definition milkDone : Document :=
  {| _id := JObjectId 20 "64b0000000000000000000aa";
     _doc := {[ "title" := JStr "Buy milk";
                "description" := JStr "";
                "completed" := JBool true;
                "owner" := JObjectId 21 "64b000000000000000000001" ]};
     isNew := false;
     modifiedPaths := ∅;
     locals := None |}.

Definition setCompleted : Update :=
  {| u_set := Some {[ "completed" := JBool true ]}; u_top := ∅ |}.

Definition byId : gmap string JsValue :=
  {[ "_id" := JStr "64b0000000000000000000aa" ]}.

(** The task createTask builds for alice from the body [{ title: "Buy milk" }]:
    [new Task({ title, description: '', owner: req.user._id })] with the
    default of [completed], and the actor context attached. *)
Definition newMilk : Document :=
  createTask_attach alice
    {| _id := JObjectId 10 "64b0000000000000000000aa";
       _doc := {[ "title" := JStr "Buy milk";
                  "description" := JStr "";
                  "completed" := JBool false;
                  "owner" := User._id alice ]};
       isNew := true;
       modifiedPaths := {[ "title"; "description"; "owner" ]};
       locals := None |}.

(** ** Vocabulary of the statements *)

(** The world after [TaskHistory.create(r)] inside the hooks' [try]: the
    record is stored, or the error is reported on the console. *)
Definition afterWrite (be : Backend) (r : AuditRecord) (w : World) : World :=
  match be (task_histories w) r with
  | None =>
      {| task_histories := task_histories w ++ [r];
         issued := issued w ++ [HCreate r];
         console := console w;
         clock := clock w |}
  | Some e =>
      {| task_histories := task_histories w;
         issued := issued w ++ [HCreate r];
         console := console w ++ [("Error creating audit log:", e)];
         clock := clock w |}
  end.

(** From [w] to [w'] either nothing happened, or one insert of a record
    satisfying [P] was issued; the record is stored, and nothing is reported
    on the console, when the store takes it. *)
Definition writesAtMostOne (be : Backend) (w w' : World) (P : AuditRecord -> Prop)
  : Prop :=
  w' = w
  \/ exists r, P r
       /\ issued w' = issued w ++ [HCreate r]
       /\ (be (task_histories w) r = None ->
           task_histories w' = task_histories w ++ [r] /\ console w' = console w).

(** From [w] to [w'] the operations issued on the audit collection are
    inserts of records satisfying [P] and reads, and the collection has
    grown at its end by records that were inserted. *)
Definition grows (P : AuditRecord -> Prop) (w w' : World) : Prop :=
  exists (ops : list HistoryOp) (rs : list AuditRecord),
    issued w' = issued w ++ ops
    /\ task_histories w' = task_histories w ++ rs
    /\ Forall (fun op => rewrites op = false
                         /\ (appends op = true \/ queries op = true)) ops
    /\ sublist rs (created ops)
    /\ Forall P (created ops).

(** A record of kind [update] lists at least one change. *)
Definition updateHasChanges (r : AuditRecord) : Prop :=
  change_type r = update -> logs r <> [].

Ltac run_hook :=
  unfold tryCatch, afterTry, next, newDate, TaskHistory_create, console_error,
    lift, afterWrite, mbind, M_bind, mret, M_ret; simpl.

(** ** Access control (src/middleware/rbac.js) *)

(** What a middleware hands to the router: [next()], or
    [next(new AppError(message, statusCode))]. *)
Inductive Passed : Type :=
| Continue
| Refused (reason : string) (statusCode : Z).

(** [roles.includes(r)] *)
Definition includes (roles : list string) (r : string) : bool :=
  existsb (String.eqb r) roles.


(** [requireOwnerOrAdmin]; the boolean is [req.requireOwnerCheck] after the
    call. *)
Definition requireOwnerOrAdmin (user : option User.t) : Passed * bool :=
  match user with
  | None => (Refused "Authentication required" 401, false)
  | Some u =>
      if includes (User.roles u) "admin"
      then (Continue, false)
      else (Continue, true)
  end.

(** ** Authentication (auth middleware) *)

(** [s.split(' ')] *)
Fixpoint splitSpaces (s : string) : list string :=
  match s with
  | EmptyString => [EmptyString]
  | String c rest =>
      if Ascii.eqb c " "%char
      then EmptyString :: splitSpaces rest
      else match splitSpaces rest with
           | word :: words => String c word :: words
           | [] => [String c EmptyString]
           end
  end.

(** The token [authenticate] takes from the Authorization header:
    [undefined] unless the header is there and starts with 'Bearer', else
    [header.split(' ')[1]]. *)
Definition bearerToken (authorization : option string) : option string :=
  match authorization with
  | Some header =>
      if negb (String.eqb header "") && String.prefix "Bearer" header
      then nth_error (splitSpaces header) 1
      else None
  | None => None
  end.

(** What [authenticate] ends with: [req.user] set and [next()], or
    [next(error)]. *)
Inductive Authentication : Type :=
| Authenticated (user : User.t)
| NotAuthenticated (p : Passed).

(** What the outside answers to [authenticate]: [jwt.verify(token, secret)]
    gives [decoded.id] or raises; [User.findById(id)] gives the user, no
    user, or raises. *)
Record Identity : Type := mkIdentity {
  verify : string -> Result string;
  findUser : string -> Result (option User.t)
}.

Definition authenticate (ident : Identity) (authorization : option string)
  : Authentication :=
  match bearerToken authorization with
  | None => NotAuthenticated (Refused "Not authorized to access this route" 401)
  | Some token =>
      if String.eqb token ""
      then NotAuthenticated (Refused "Not authorized to access this route" 401)
      else
        (* try { verify; findById; if (!req.user) throw 404 }
           catch (error) { throw new AppError('Invalid token', 401) } *)
        match verify ident token with
        | Throw _ => NotAuthenticated (Refused "Invalid token" 401)
        | Ok id =>
            match findUser ident id with
            | Throw _ => NotAuthenticated (Refused "Invalid token" 401)
            | Ok None =>
                (* throw new AppError('User not found', 404), caught by the
                   inner catch *)
                NotAuthenticated (Refused "Invalid token" 401)
            | Ok (Some user) => Authenticated user
            end
        end
  end.

(** ** The audit routes: authenticate, requireAdmin, then the controller *)




(** ** The error handler (errorHandler middleware) *)

(** The error object, by what the handler reads of it. *)
Module Err.
Record t : Type := mk {
  name : string;
  code : option Z;
  statusCode : option Z;
  message : string;
  errors : list string;     (* the messages of Object.values(err.errors) *)
  stack : string
}.
End Err.

(** [errorResponse(res, statusCode, message, errors)] *)
Record ErrorReply : Type := mkErrorReply {
  status : Z;
  text : string;
  details : option string
}.

(** [a || b] on a status code. *)
Definition orStatus (a b : option Z) : option Z :=
  match a with
  | Some n => if n =? 0 then b else Some n
  | None => b
  end.

(** [errorHandler]; [env] is [config.env].  The first component of the
    working pair is [error.message], the second [error.statusCode].  Before
    it answers the handler sends the error to the logger; the function
    below is the answer. *)
Definition errorHandler (env : string) (err : Err.t) : ErrorReply :=
  let error := (Err.message err, Err.statusCode err) in
  let error :=
    if String.eqb (Err.name err) "CastError"
    then ("Resource not found", Some 404) else error in
  let error :=
    if bool_decide (Err.code err = Some 11000)
    then ("Duplicate field value entered", Some 400) else error in
  let error :=
    if String.eqb (Err.name err) "ValidationError"
    then (String.concat ", " (Err.errors err), Some 400) else error in
  let error :=
    if String.eqb (Err.name err) "JsonWebTokenError"
    then ("Invalid token", Some 401) else error in
  let error :=
    if String.eqb (Err.name err) "TokenExpiredError"
    then ("Token expired", Some 401) else error in
  let statusCode :=
    default 500 (orStatus (orStatus (snd error) (Err.statusCode err)) (Some 500)) in
  let message := if String.eqb (fst error) "" then "Server Error" else fst error in
  let errors := if String.eqb env "local" then Some (Err.stack err) else None in
  {| status := statusCode; text := message; details := errors |}.

(** The selection [getAuditLogs] builds from the request. *)
Definition selectionOf (req : AuditLogsRequest) : HistoryQuery :=
  {| q_model := given (rq_model req);
     q_model_id := given (rq_taskId req);
     q_created_by_id := given (rq_userId req);
     q_change_type := given (rq_changeType req) |}.

(** No space in a string. *)
Fixpoint spaceFree (s : string) : bool :=
  match s with
  | EmptyString => true
  | String c rest => negb (Ascii.eqb c " "%char) && spaceFree rest
  end.

(** ** The task controller (src/controllers/taskController.js) *)

(** [v.toString()]: the identifier an [ObjectId] holds, the string itself;
    [null] and [undefined] have no properties. *)
Definition toString (v : JsValue) : Result string :=
  match v with
  | JObjectId _ hex => Ok hex
  | JStr s => Ok s
  | JBool true => Ok "true"
  | JBool false => Ok "false"
  | JNum n => Ok (pretty n)
  | JNull => Throw {| message := "TypeError: Cannot read properties of null" |}
  | JUndefined => Throw {| message := "TypeError: Cannot read properties of undefined" |}
  end.

(** The request, by what the task controller reads of it. *)
Module Req.
Record t : Type := mk {
  user : option User.t;             (* req.user *)
  id : string;                      (* req.params.id *)
  body : gmap string JsValue;       (* req.body *)
  queryUser : option string         (* req.query.user, a string when given *)
}.
End Req.

(** What a controller can throw inside its [try]: an [AppError], or
    whatever a call it awaits raises. *)
Inductive Thrown : Type :=
| AppError (reason : string) (statusCode : Z)
| Raised (e : JsError).

(** The operations the controller issues on the Task model. *)
Inductive TaskOp : Type :=
| TFind (query : gmap string JsValue)
| TFindById (id : string)
| TFindByIdPopulated (id : string)
| TNew (taskData : gmap string JsValue)
| TSave (doc : Document)
| TPopulate (doc : Document)
| TFindByIdAndUpdate (id : string) (updateData : gmap string JsValue) (options : Options.t)
| TFindByIdAndDelete (id : string) (options : Options.t).

(** The lines sent to [logger.info]. *)
Inductive Info : Type :=
| TaskCreated (taskId userId title : JsValue)
| TaskUpdated (taskId userId : JsValue) (changes : gmap string JsValue)
| TaskDeleted (taskId userId : JsValue).

(** What a controller acts on: the audit side, the operations issued on
    the Task model and the application log. *)
Record Server : Type := mkServer {
  audit : World;
  taskOps : list TaskOp;
  infos : list Info
}.

(** What the database and Mongoose answer to the controller. *)
Record TaskDb : Type := mkTaskDb {
  db_find : gmap string JsValue -> Result (list Document);
  db_findById : string -> Result (option Document);
  (* findById(id).populate('owner', 'email'): the task and the [_id] of its
     populated owner, [None] when the owner is [null] *)
  db_findByIdPopulated : string -> Result (option (Document * option JsValue));
  db_new : gmap string JsValue -> Document;         (* new Task(taskData) *)
  db_save : Document -> Result unit;                (* validation and write of save() *)
  db_populate : Document -> Result Document;        (* doc.populate('owner', 'email') *)
  db_snapshot : TaskModel;                          (* findOne of the before-phase *)
  (* the [$set] of the update as the after-phase reads it from
     [this.getUpdate()]: Mongoose has cast the values to the schema and
     merged the top-level fields of the payload into [$set] by then *)
  db_cast : gmap string JsValue -> gmap string JsValue;
  (* the answer of findByIdAndUpdate(id, updateData, options)
     .populate('owner', 'email') and of findByIdAndDelete(id, options) *)
  db_update : string -> gmap string JsValue -> Result (option Document);
  db_delete : string -> Result (option Document);
  db_audit : Backend
}.

Inductive Outcome (A : Type) : Type :=
| Done (a : A)
| Failed (t : Thrown).
Arguments Done {A} a.
Arguments Failed {A} t.

(** A controller body: acts on the server and returns or throws. *)
Definition H (A : Type) : Type := Server -> Outcome A * Server.

#[global] Instance H_ret : MRet H := fun A a s => (Done a, s).

#[global] Instance H_bind : MBind H := fun A B k c s =>
  match c s with
  | (Done a, s') => k a s'
  | (Failed t, s') => (Failed t, s')
  end.

Definition throw {A} (t : Thrown) : H A := fun s => (Failed t, s).

(** An awaited answer. *)
Definition ask {A} (r : Result A) : H A :=
  fun s => match r with Ok a => (Done a, s) | Throw e => (Failed (Raised e), s) end.

(** A Mongoose call that runs hooks on the audit side. *)
Definition liftM {A} (c : M A) : H A :=
  fun s =>
    match c (audit s) with
    | (Ok a, w) => (Done a, {| audit := w; taskOps := taskOps s; infos := infos s |})
    | (Throw e, w) =>
        (Failed (Raised e), {| audit := w; taskOps := taskOps s; infos := infos s |})
    end.

Definition taskOp (op : TaskOp) : H unit :=
  fun s => (Done tt, {| audit := audit s; taskOps := taskOps s ++ [op]; infos := infos s |}).

(** [logger.info(line)] *)
Definition logger_info (line : Info) : H unit :=
  fun s => (Done tt, {| audit := audit s; taskOps := taskOps s; infos := infos s ++ [line] |}).

(** What [successResponse(res, status, message, data)] carries. *)
Inductive Data : Type :=
| NoData
| TaskData (task : Document)
| TasksData (tasks : list Document)
| UserData (id : JsValue) (email : string) (roles : list string).

(** What a controller ends with. *)
Inductive Answer : Type :=
| Responded (status : Z) (msg : string) (data : Data)
| Next (t : Thrown).

(** [try { body } catch (error) { next(error); }] *)
Definition handle (body : H Answer) (s : Server) : Answer * Server :=
  match body s with
  | (Done a, s') => (a, s')
  | (Failed t, s') => (Next t, s')
  end.

(** [req.user], read for one of its properties. *)
Definition theUser (req : Req.t) : H User.t :=
  match Req.user req with
  | Some user => mret user
  | None => throw (Raised {| message := "TypeError: Cannot read properties of undefined" |})
  end.

(** The query object of [findByIdAndUpdate(id, update, options)] and of
    [findByIdAndDelete(id, options)], as the hooks see it; [update] is what
    [this.getUpdate()] gives them. *)
Definition byIdQuery (id : string) (update : Update) (options : Options.t) : Query :=
  {| getQuery := {[ "_id" := JStr id ]};
     getOptions := Some options;
     getUpdate := update;
     _originalDoc := None;
     _deletedDoc := None |}.

(** The update of [findByIdAndUpdate(id, updateData, options)] as the hooks
    read it: the payload has top-level fields only, so all of it is under
    [$set]. *)
Definition merged (db : TaskDb) (updateData : gmap string JsValue) : Update :=
  {| u_set := Some (db_cast db updateData); u_top := ∅ |}.

(** A delete has no update. *)
Definition noUpdate : Update := {| u_set := None; u_top := ∅ |}.

Definition getTasks (db : TaskDb) (req : Req.t) : Server -> Answer * Server :=
  handle (
    user ← theUser req;
    let isAdmin := includes (User.roles user) "admin" in
    let query : gmap string JsValue :=
      if negb isAdmin then {[ "owner" := User._id user ]}
      else match Req.queryUser req with
           | Some u => if String.eqb u "" then ∅ else {[ "owner" := JStr u ]}
           | None => ∅
           end in
    taskOp (TFind query) ;;
    tasks ← ask (db_find db query);
    mret (Responded 200 "Tasks retrieved successfully" (TasksData tasks))).

Definition getTask (db : TaskDb) (req : Req.t) : Server -> Answer * Server :=
  handle (
    taskOp (TFindByIdPopulated (Req.id req)) ;;
    found ← ask (db_findByIdPopulated db (Req.id req));
    match found with
    | None => throw (AppError "Task not found" 404)
    | Some (task, owner) =>
        user ← theUser req;
        let isAdmin := includes (User.roles user) "admin" in
        ownerId ← match owner with
                  | Some oid => ask (toString oid)
                  | None => ask (toString JNull)
                  end;
        userId ← ask (toString (User._id user));
        let isOwner := String.eqb ownerId userId in
        if negb isOwner && negb isAdmin
        then throw (AppError "Not authorized to access this task" 403)
        else mret (Responded 200 "Task retrieved successfully" (TaskData task))
    end).

Definition createTask (db : TaskDb) (req : Req.t) : Server -> Answer * Server :=
  handle (
    let title := prop (Req.body req) "title" in
    let description := prop (Req.body req) "description" in
    let owner := prop (Req.body req) "owner" in
    user ← theUser req;
    let isAdmin := includes (User.roles user) "admin" in
    if negb (truthy title) then throw (AppError "Task title is required" 400)
    else
      taskOwner ←
        (if truthy owner && isAdmin then mret owner
         else if truthy owner && negb isAdmin
              then throw (AppError "Only admins can assign tasks to other users" 403)
              else mret (User._id user));
      let taskData : gmap string JsValue :=
        {[ "title" := title;
           "description" := jsOr description (JStr "");
           "owner" := taskOwner ]} in
      taskOp (TNew taskData) ;;
      let taskDoc := createTask_attach user (db_new db taskData) in
      taskOp (TSave taskDoc) ;;
      ask (db_save db taskDoc) ;;
      createdTask ← liftM (saved (db_audit db) taskDoc);
      taskOp (TPopulate createdTask) ;;
      createdTask ← ask (db_populate db createdTask);
      logger_info (TaskCreated (_id createdTask) (User._id user)
                     (field createdTask "title")) ;;
      mret (Responded 201 "Task created successfully" (TaskData createdTask))).

(** [if (req.body[k] !== undefined) updateData[k] = req.body[k]] *)
Definition copyDefined (body : gmap string JsValue) (k : string)
    (updateData : gmap string JsValue) : gmap string JsValue :=
  if strictNe (prop body k) JUndefined then <[k := prop body k]> updateData
  else updateData.

(** The [updateData] object updateTask builds from the body. *)
Definition updateDataOf (body : gmap string JsValue) (isAdmin : bool)
  : gmap string JsValue :=
  let updateData : gmap string JsValue := ∅ in
  let updateData := copyDefined body "title" updateData in
  let updateData := copyDefined body "description" updateData in
  let updateData := copyDefined body "completed" updateData in
  let updateData :=
    if strictNe (prop body "owner") JUndefined && isAdmin
    then <["owner" := prop body "owner"]> updateData
    else updateData in
  updateData.

Definition updateTask (db : TaskDb) (req : Req.t) : Server -> Answer * Server :=
  handle (
    taskOp (TFindById (Req.id req)) ;;
    found ← ask (db_findById db (Req.id req));
    match found with
    | None => throw (AppError "Task not found" 404)
    | Some task =>
        user ← theUser req;
        let isAdmin := includes (User.roles user) "admin" in
        ownerId ← ask (toString (field task "owner"));
        userId ← ask (toString (User._id user));
        let isOwner := String.eqb ownerId userId in
        if negb isOwner && negb isAdmin
        then throw (AppError "Not authorized to update this task" 403)
        else if truthy (prop (Req.body req) "owner") && negb isAdmin
        then throw (AppError "Only admins can reassign tasks" 403)
        else
          let updateData := updateDataOf (Req.body req) isAdmin in
          let options := updateTask_options user in
          taskOp (TFindByIdAndUpdate (Req.id req) updateData options) ;;
          updated ← liftM (findOneAndUpdate (db_snapshot db) (db_audit db)
                             (byIdQuery (Req.id req) (merged db updateData) options)
                             (db_update db (Req.id req) updateData));
          match updated with
          | None =>
              (* task._id of null *)
              throw (Raised {| message := "TypeError: Cannot read properties of null" |})
          | Some task =>
              logger_info (TaskUpdated (_id task) (User._id user) updateData) ;;
              mret (Responded 200 "Task updated successfully" (TaskData task))
          end
    end).

Definition deleteTask (db : TaskDb) (req : Req.t) : Server -> Answer * Server :=
  handle (
    taskOp (TFindById (Req.id req)) ;;
    found ← ask (db_findById db (Req.id req));
    match found with
    | None => throw (AppError "Task not found" 404)
    | Some task =>
        user ← theUser req;
        let isAdmin := includes (User.roles user) "admin" in
        ownerId ← ask (toString (field task "owner"));
        userId ← ask (toString (User._id user));
        let isOwner := String.eqb ownerId userId in
        if negb isOwner && negb isAdmin
        then throw (AppError "Not authorized to delete this task" 403)
        else
          let options := deleteTask_options user in
          taskOp (TFindByIdAndDelete (Req.id req) options) ;;
          liftM (findOneAndDelete (db_snapshot db) (db_audit db)
                   (byIdQuery (Req.id req) noUpdate options)
                   (db_delete db (Req.id req))) ;;
          logger_info (TaskDeleted (_id task) (User._id user)) ;;
          mret (Responded 200 "Task deleted successfully" NoData)
    end).

(** A query with another update. *)
(** The operations a controller call starting in [s] issues on the Task
    model. *)
Definition opsOf (call : Server -> Answer * Server) (s : Server) : list TaskOp :=
  drop (length (taskOps s)) (taskOps (snd (call s))).

(** The user is an administrator, or the identifier of the user reads the
    same as that of the owner. *)
Definition ownerOrAdmin (user : User.t) (owner : JsValue) : Prop :=
  includes (User.roles user) "admin" = true
  \/ exists hex, toString owner = Ok hex /\ toString (User._id user) = Ok hex.

(** The actor a record names for a request of [user]. *)
Definition actorOf (user : User.t) : option CreatedBy.t :=
  Some {| CreatedBy.id := User._id user;
          CreatedBy.name := JStr (User.email user);
          CreatedBy.role :=
            JStr (match User.roles user with r :: _ => r | [] => "user" end) |}.

(** A user who is not an administrator and owns no sample task. *)
Definition bob : User.t :=
  {| User._id := JObjectId 2 "64b000000000000000000002";
     User.email := "bob@example.com";
     User.roles := ["user"] |}.

(** The owner of the sample task, not an administrator. *)
Definition ann : User.t :=
  {| User._id := JObjectId 3 "64b000000000000000000001";
     User.email := "ann@example.com";
     User.roles := ["user"] |}.

Definition idle : Server := {| audit := emptyWorld; taskOps := []; infos := [] |}.

(** A database holding the sample task. *)
Definition sampleDb : TaskDb :=
  {| db_find := fun _ => Ok [milk];
     db_findById := fun _ => Ok (Some milk);
     db_findByIdPopulated := fun _ => Ok (Some (milk, Some (field milk "owner")));
     db_new := fun taskData =>
       {| _id := JObjectId 30 "64b0000000000000000000bb";
          _doc := <["completed" := JBool false]> taskData;
          isNew := true;
          modifiedPaths := dom taskData;
          locals := None |};
     db_save := fun _ => Ok tt;
     db_populate := fun doc => Ok doc;
     db_snapshot := fun _ => Ok (Some milk);
     db_cast := fun updateData => <["updatedAt" := JNum 1700000000000]> updateData;
     db_update := fun _ _ => Ok (Some milkDone);
     db_delete := fun _ => Ok (Some milk);
     db_audit := accepting |}.

(** The same database when the fetch of the before-phase cannot reach it. *)
Definition fetchDown : TaskDb :=
  {| db_find := db_find sampleDb;
     db_findById := db_findById sampleDb;
     db_findByIdPopulated := db_findByIdPopulated sampleDb;
     db_new := db_new sampleDb;
     db_save := db_save sampleDb;
     db_populate := db_populate sampleDb;
     db_snapshot := fun _ => Throw {| message := "MongoNetworkError" |};
     db_cast := db_cast sampleDb;
     db_update := db_update sampleDb;
     db_delete := db_delete sampleDb;
     db_audit := db_audit sampleDb |}.

Definition request (user : User.t) (body : gmap string JsValue) : Req.t :=
  {| Req.user := Some user;
     Req.id := "64b0000000000000000000aa";
     Req.body := body;
     Req.queryUser := None |}.

(** ** The user controller: changeUserRole and deleteUser *)

(** The request, by what the two controllers read of it; [roles] is
    [req.body.roles] when that is an array, [None] when it is absent or
    anything else. *)
Module UserReq.
Record t : Type := mk {
  user : option User.t;
  id : string;
  roles : option (list JsValue)
}.
End UserReq.

(** The operations the two controllers issue on the models. *)
Inductive UserOp : Type :=
| UFindById (id : string)
| USave (user : User.t)
| UDeleteTasks (filter : gmap string JsValue)      (* Task.deleteMany(filter) *)
| UFindByIdAndDelete (id : string).

Inductive UserInfo : Type :=
| RoleChanged (userId : JsValue) (newRoles : list JsValue) (changedBy : JsValue)
| UserDeleted (deletedUserId deletedBy : JsValue).

Record Accounts : Type := mkAccounts {
  userOps : list UserOp;
  userInfos : list UserInfo
}.

(** What the database answers to the user controller. *)
Record UserDb : Type := mkUserDb {
  ud_findById : string -> Result (option User.t);
  ud_save : User.t -> Result unit;
  ud_deleteTasks : gmap string JsValue -> Result unit;
  ud_delete : string -> Result unit
}.

Definition U (A : Type) : Type := Accounts -> Outcome A * Accounts.

#[global] Instance U_ret : MRet U := fun A a s => (Done a, s).

#[global] Instance U_bind : MBind U := fun A B k c s =>
  match c s with
  | (Done a, s') => k a s'
  | (Failed t, s') => (Failed t, s')
  end.

Definition raise {A} (t : Thrown) : U A := fun s => (Failed t, s).

Definition await {A} (r : Result A) : U A :=
  fun s => match r with Ok a => (Done a, s) | Throw e => (Failed (Raised e), s) end.

Definition userOp (op : UserOp) : U unit :=
  fun s => (Done tt, {| userOps := userOps s ++ [op]; userInfos := userInfos s |}).

Definition logger_info_user (line : UserInfo) : U unit :=
  fun s => (Done tt, {| userOps := userOps s; userInfos := userInfos s ++ [line] |}).

(** [try { body } catch (error) { next(error); }] *)
Definition handled (body : U Answer) (s : Accounts) : Answer * Accounts :=
  match body s with
  | (Done a, s') => (a, s')
  | (Failed t, s') => (Next t, s')
  end.

Definition requester (req : UserReq.t) : U User.t :=
  match UserReq.user req with
  | Some user => mret user
  | None => raise (Raised {| message := "TypeError: Cannot read properties of undefined" |})
  end.

(** [array.includes(v)] *)
Definition includesValue (array : list JsValue) (v : JsValue) : bool :=
  existsb (strictEq v) array.

(** The text of an element in [array.join(sep)]. *)
Definition joined (v : JsValue) : string :=
  match v with
  | JStr s => s
  | JNum n => pretty n
  | JBool true => "true"
  | JBool false => "false"
  | JObjectId _ hex => hex
  | JNull | JUndefined => ""
  end.

(** The strings of an array of roles. *)
Definition roleNames (roles : list JsValue) : list string :=
  omap (fun v => match v with JStr s => Some s | _ => None end) roles.

Definition changeUserRole (db : UserDb) (req : UserReq.t)
  : Accounts -> Answer * Accounts :=
  handled (
    match UserReq.roles req with
    | None => raise (AppError "Roles array is required" 400)
    | Some roles =>
        let validRoles := [JStr "user"; JStr "admin"] in
        let invalidRoles :=
          List.filter (fun role => negb (includesValue validRoles role)) roles in
        if (0 <? length invalidRoles)%nat
        then raise (AppError ("Invalid roles: "
                                +:+ String.concat ", " (map joined invalidRoles)) 400)
        else
          userOp (UFindById (UserReq.id req)) ;;
          found ← await (ud_findById db (UserReq.id req));
          match found with
          | None => raise (AppError "User not found" 404)
          | Some user =>
              userId ← await (toString (User._id user));
              me ← requester req;
              myId ← await (toString (User._id me));
              if String.eqb userId myId && negb (includesValue roles (JStr "admin"))
              then raise (AppError "Cannot remove your own admin role" 400)
              else
                let user :=
                  {| User._id := User._id user;
                     User.email := User.email user;
                     User.roles := roleNames roles |} in
                userOp (USave user) ;;
                await (ud_save db user) ;;
                logger_info_user (RoleChanged (User._id user) roles (User._id me)) ;;
                mret (Responded 200 "User role updated successfully"
                        (UserData (User._id user) (User.email user) (User.roles user)))
          end
    end).

Definition deleteUser (db : UserDb) (req : UserReq.t)
  : Accounts -> Answer * Accounts :=
  handled (
    userOp (UFindById (UserReq.id req)) ;;
    found ← await (ud_findById db (UserReq.id req));
    match found with
    | None => raise (AppError "User not found" 404)
    | Some user =>
        userId ← await (toString (User._id user));
        me ← requester req;
        myId ← await (toString (User._id me));
        if String.eqb userId myId
        then raise (AppError "Cannot delete your own account" 400)
        else
          let owned : gmap string JsValue := {[ "owner" := User._id user ]} in
          userOp (UDeleteTasks owned) ;;
          await (ud_deleteTasks db owned) ;;
          userOp (UFindByIdAndDelete (UserReq.id req)) ;;
          await (ud_delete db (UserReq.id req)) ;;
          logger_info_user (UserDeleted (User._id user) (User._id me)) ;;
          mret (Responded 200 "User deleted successfully" NoData)
    end).

(** The operations a user-controller call starting in [s] issues. *)
Definition userOpsOf (call : Accounts -> Answer * Accounts) (s : Accounts)
  : list UserOp :=
  drop (length (userOps s)) (userOps (snd (call s))).

Definition noAccounts : Accounts := {| userOps := []; userInfos := [] |}.

(** A database of users holding bob. *)
Definition usersDb : UserDb :=
  {| ud_findById := fun _ => Ok (Some bob);
     ud_save := fun _ => Ok tt;
     ud_deleteTasks := fun _ => Ok tt;
     ud_delete := fun _ => Ok tt |}.

(** The shape of a record by its kind: the model is "Task"; a [delete]
    record carries the sentinel entry; the entries of the other kinds name
    audited fields, in the order of [auditFields], none twice; those of a
    [create] record start from [null]; an [update] record has an entry. *)
Definition wellShaped (r : AuditRecord) : Prop :=
  model r = "Task"
  /\ match change_type r with
     | delete => logs r = deleteLogs
     | create =>
         sublist (map field_name (logs r)) auditFields
         /\ Forall (fun e => from_value e = JNull /\ to_value e <> JUndefined) (logs r)
     | update =>
         sublist (map field_name (logs r)) auditFields /\ logs r <> []
     end.

(** * Properties *)

(** ** The diff engine in closed form *)

Lemma forEach_push {A B} (p : A -> bool) (g : A -> B) (l : list A) (init : list B) :
  forEach l (fun acc x => if p x then push acc (g x) else acc) init
  = init ++ map g (List.filter p l).
Proof.
  unfold forEach, push. revert init.
  induction l as [|x l IH]; intros init; simpl.
  - by rewrite app_nil_r.
  - rewrite IH. destruct (p x); simpl; [by rewrite <- app_assoc | done].
Qed.

Lemma getChangedFieldsForCreate_spec (doc : Document) :
  getChangedFieldsForCreate doc
  = map (fun f => {| field_name := f; from_value := JNull; to_value := field doc f |})
        (List.filter (fun f => strictNe (field doc f) JUndefined) auditFields).
Proof. unfold getChangedFieldsForCreate. by rewrite forEach_push. Qed.

Lemma getChangedFieldsForUpdate_spec (doc : Document) :
  getChangedFieldsForUpdate doc
  = map (fun f => {| field_name := f; from_value := get doc f; to_value := field doc f |})
        (List.filter (isModified doc) auditFields).
Proof. unfold getChangedFieldsForUpdate. cbv zeta. by rewrite forEach_push. Qed.

Lemma updateLogs_spec (originalDoc : Document) (u : Update) (doc : Document) :
  updateLogs originalDoc u doc
  = map (fun f => {| field_name := f;
                     from_value := field originalDoc f;
                     to_value := newValue u doc f |})
        (List.filter (fun f => strictNe (field originalDoc f) (newValue u doc f)
                               && strictNe (newValue u doc f) JUndefined)
                     auditFields).
Proof. unfold updateLogs. cbv zeta. by rewrite forEach_push. Qed.

(** ** The after-phase hooks in closed form *)

Lemma postSave_create (be : Backend) (doc : Document) (w : World) :
  isNew doc = true ->
  postSave be doc w
  = (Ok (NextCalled None),
     afterWrite be {| model := "Task"; model_id := _id doc; change_type := create;
                      logs := getChangedFieldsForCreate doc;
                      created_by := createdBy (locals doc ≫= Locals.auditUser);
                      created_at := clock w |} w).
Proof.
  intros Hnew. unfold postSave. rewrite Hnew. run_hook.
  rewrite orb_true_r. simpl.
  by destruct (be (task_histories w) _).
Qed.

Lemma postSave_update (be : Backend) (doc : Document) (w : World) :
  isNew doc = false ->
  postSave be doc w
  = (Ok (NextCalled None),
     if 0 <? Z.of_nat (length (getChangedFieldsForUpdate doc))
     then afterWrite be {| model := "Task"; model_id := _id doc; change_type := update;
                           logs := getChangedFieldsForUpdate doc;
                           created_by := createdBy (locals doc ≫= Locals.auditUser);
                           created_at := clock w |} w
     else w).
Proof.
  intros Hnew. unfold postSave. rewrite Hnew. run_hook.
  rewrite orb_false_r.
  destruct (0 <? _); simpl; [|done].
  by destruct (be (task_histories w) _).
Qed.

Lemma postFindOneAndUpdate_eq (be : Backend) (this : Query) (doc : option Document)
    (w : World) :
  postFindOneAndUpdate be this doc w
  = (Ok (NextCalled None),
     match doc, _originalDoc this with
     | Some after, Some originalDoc =>
         if 0 <? Z.of_nat (length (updateLogs originalDoc (getUpdate this) after))
         then afterWrite be
                {| model := "Task"; model_id := _id after; change_type := update;
                   logs := updateLogs originalDoc (getUpdate this) after;
                   created_by := createdBy (getOptions this ≫= Options.auditUser);
                   created_at := clock w |} w
         else w
     | _, _ => w
     end).
Proof.
  unfold postFindOneAndUpdate.
  destruct doc as [after|]; [|done].
  destruct (_originalDoc this) as [originalDoc|]; [|done].
  run_hook.
  destruct (0 <? _); simpl; [|done].
  by destruct (be (task_histories w) _).
Qed.

Lemma postFindOneAndDelete_eq (be : Backend) (this : Query) (doc : option Document)
    (w : World) :
  postFindOneAndDelete be this doc w
  = (Ok (NextCalled None),
     match orElse (_deletedDoc this) doc with
     | Some deletedDoc =>
         afterWrite be
           {| model := "Task"; model_id := _id deletedDoc; change_type := delete;
              logs := deleteLogs;
              created_by := createdBy (getOptions this ≫= Options.auditUser);
              created_at := clock w |} w
     | None => w
     end).
Proof.
  unfold postFindOneAndDelete.
  destruct (orElse (_deletedDoc this) doc) as [deletedDoc|]; [|done].
  run_hook.
  by destruct (be (task_histories w) _).
Qed.

Lemma postSave_signal (be : Backend) (doc : Document) (w : World) :
  fst (postSave be doc w) = Ok (NextCalled None).
Proof.
  destruct (isNew doc) eqn:Hnew.
  - by rewrite postSave_create.
  - by rewrite postSave_update.
Qed.

(** ** The pathways in closed form *)

Lemma saved_eq (be : Backend) (doc : Document) (w : World) :
  saved be doc w = (Ok (afterSave doc), snd (postSave be (afterSave doc) w)).
Proof.
  unfold saved, mbind, M_bind. cbv zeta.
  pose proof (postSave_signal be (afterSave doc) w) as Hs.
  destruct (postSave be (afterSave doc) w) as [r w']. simpl in Hs. by subst r.
Qed.

Lemma getChangedFieldsForUpdate_afterSave (doc : Document) :
  getChangedFieldsForUpdate (afterSave doc) = [].
Proof. rewrite getChangedFieldsForUpdate_spec. reflexivity. Qed.

(** The hook of a save never sees a new document nor a modified path: on
    the save pathway nothing is handed to the audit store. *)
Lemma saved_writes_nothing (be : Backend) (doc : Document) (w : World) :
  saved be doc w = (Ok (afterSave doc), w).
Proof.
  rewrite saved_eq, postSave_update by done.
  by rewrite getChangedFieldsForUpdate_afterSave.
Qed.

Lemma preFindOneAndUpdate_eq (tasks : TaskModel) (this : Query) (w : World) :
  preFindOneAndUpdate tasks this w
  = match tasks (getQuery this) with
    | Ok found =>
        (Ok {| getQuery := getQuery this; getOptions := getOptions this;
               getUpdate := getUpdate this; _originalDoc := found;
               _deletedDoc := _deletedDoc this |}, w)
    | Throw e => (Throw e, w)
    end.
Proof.
  unfold preFindOneAndUpdate, lift, mbind, M_bind, mret, M_ret.
  by destruct (tasks (getQuery this)).
Qed.

Lemma preFindOneAndDelete_eq (tasks : TaskModel) (this : Query) (w : World) :
  preFindOneAndDelete tasks this w
  = match tasks (getQuery this) with
    | Ok found =>
        (Ok {| getQuery := getQuery this; getOptions := getOptions this;
               getUpdate := getUpdate this; _originalDoc := _originalDoc this;
               _deletedDoc := found |}, w)
    | Throw e => (Throw e, w)
    end.
Proof.
  unfold preFindOneAndDelete, lift, mbind, M_bind, mret, M_ret.
  by destruct (tasks (getQuery this)).
Qed.

Lemma findOneAndUpdate_eq (tasks : TaskModel) (be : Backend) (this : Query)
    (primary : Result (option Document)) (w : World) :
  findOneAndUpdate tasks be this primary w
  = match preFindOneAndUpdate tasks this w, primary with
    | (Ok this', _), Ok doc => (Ok doc, snd (postFindOneAndUpdate be this' doc w))
    | (Ok _, _), Throw e => (Throw e, w)
    | (Throw e, _), _ => (Throw e, w)
    end.
Proof.
  unfold findOneAndUpdate. unfold mbind at 1. unfold M_bind at 1.
  rewrite preFindOneAndUpdate_eq.
  destruct (tasks (getQuery this)) as [found|e]; [|done].
  unfold mbind, M_bind, lift. destruct primary as [doc|e]; [|done].
  by rewrite postFindOneAndUpdate_eq.
Qed.

Lemma findOneAndDelete_eq (tasks : TaskModel) (be : Backend) (this : Query)
    (primary : Result (option Document)) (w : World) :
  findOneAndDelete tasks be this primary w
  = match preFindOneAndDelete tasks this w, primary with
    | (Ok this', _), Ok doc => (Ok doc, snd (postFindOneAndDelete be this' doc w))
    | (Ok _, _), Throw e => (Throw e, w)
    | (Throw e, _), _ => (Throw e, w)
    end.
Proof.
  unfold findOneAndDelete. unfold mbind at 1. unfold M_bind at 1.
  rewrite preFindOneAndDelete_eq.
  destruct (tasks (getQuery this)) as [found|e]; [|done].
  unfold mbind, M_bind, lift. destruct primary as [doc|e]; [|done].
  by rewrite postFindOneAndDelete_eq.
Qed.

(** An error of the before-phase fetch is not caught by the before-phase
    hook: the operation ends with it and nothing else happens. *)
Lemma before_phase_error_ends_the_operation (tasks : TaskModel) (be : Backend)
    (this : Query) (primary : Result (option Document)) (w : World) (e : JsError) :
  tasks (getQuery this) = Throw e ->
  findOneAndUpdate tasks be this primary w = (Throw e, w)
  /\ findOneAndDelete tasks be this primary w = (Throw e, w).
Proof.
  intros Hq.
  rewrite findOneAndUpdate_eq, findOneAndDelete_eq,
    preFindOneAndUpdate_eq, preFindOneAndDelete_eq, Hq.
  done.
Qed.

(** ** Failure isolation *)

(** C1. On each of the three pathways an error that [TaskHistory.create]
    raises in the after-phase is caught inside the hook: the hook ends with
    a plain [next()] whatever the audit store answers to the insert.  So
    the result the caller gets does not depend on the store ([be] and [be']
    are any two behaviours of it, for instance a failing and an accepting
    one): after a save the caller is delivered the document, and an atomic
    update or delete that reaches its after-phase gives the result of the
    primary mutation. *)
Theorem audit_write_failure_does_not_reach_the_caller
    (be be' : Backend) (tasks : TaskModel) (doc : Document) (this : Query)
    (result : option Document) (primary : Result (option Document)) (w : World) :
  fst (postSave be doc w) = Ok (NextCalled None)
  /\ fst (postFindOneAndUpdate be this result w) = Ok (NextCalled None)
  /\ fst (postFindOneAndDelete be this result w) = Ok (NextCalled None)
  /\ delivered doc (fst (postSave be doc w)) = Ok doc
  /\ fst (findOneAndUpdate tasks be this primary w)
     = fst (findOneAndUpdate tasks be' this primary w)
  /\ fst (findOneAndDelete tasks be this primary w)
     = fst (findOneAndDelete tasks be' this primary w)
  /\ fst (saved be doc w) = Ok (afterSave doc)
  /\ (forall found, tasks (getQuery this) = Ok found ->
      fst (findOneAndUpdate tasks be this primary w) = primary
      /\ fst (findOneAndDelete tasks be this primary w) = primary).
Proof.
  assert (forall b, fst (findOneAndUpdate tasks b this primary w)
     = match tasks (getQuery this) with Ok _ => primary | Throw e => Throw e end)
    as Hu.
  { intros b. rewrite findOneAndUpdate_eq, preFindOneAndUpdate_eq.
    destruct (tasks (getQuery this)); [|done]. by destruct primary. }
  assert (forall b, fst (findOneAndDelete tasks b this primary w)
     = match tasks (getQuery this) with Ok _ => primary | Throw e => Throw e end)
    as Hd.
  { intros b. rewrite findOneAndDelete_eq, preFindOneAndDelete_eq.
    destruct (tasks (getQuery this)); [|done]. by destruct primary. }
  split; [apply postSave_signal|].
  split; [by rewrite postFindOneAndUpdate_eq|].
  split; [by rewrite postFindOneAndDelete_eq|].
  split; [by rewrite postSave_signal|].
  split; [by rewrite !Hu|].
  split; [by rewrite !Hd|].
  split; [by rewrite saved_eq|].
  intros found Hq. by rewrite Hu, Hd, Hq.
Qed.

Lemma audit_write_failure_does_not_reach_the_caller_witness :
  let tasks : TaskModel := fun _ => Ok (Some milk) in
  let this := {| getQuery := byId; getOptions := None; getUpdate := setCompleted;
                 _originalDoc := None; _deletedDoc := None |} in
  (fst (findOneAndUpdate tasks unreachable this (Ok (Some milkDone)) emptyWorld)
   = Ok (Some milkDone)
   /\ fst (findOneAndDelete tasks unreachable this (Ok (Some milkDone)) emptyWorld)
      = Ok (Some milkDone))
  /\ console (snd (findOneAndUpdate tasks unreachable this (Ok (Some milkDone))
                     emptyWorld))
     = [("Error creating audit log:", {| message := "MongoNetworkError" |})]
  /\ task_histories (snd (findOneAndUpdate tasks unreachable this (Ok (Some milkDone))
                            emptyWorld)) = [].
Proof.
  intros tasks this. split; [|split; reflexivity].
  apply (proj2 (proj2 (proj2 (proj2 (proj2 (proj2 (proj2
           (audit_write_failure_does_not_reach_the_caller unreachable accepting tasks
              milk this None (Ok (Some milkDone)) emptyWorld))))))) (Some milk)).
  reflexivity.
Defined.

(** The before-phase is not covered by the hooks' [try]: when the fetch of
    the snapshot raises, an atomic delete ends with that error although the
    audit store is available and the delete itself would return the task. *)
Lemma delete_fetch_error_reaches_the_caller :
  let down : TaskModel := fun _ => Throw {| message := "MongoNetworkError" |} in
  let this := {| getQuery := byId; getOptions := None; getUpdate := setCompleted;
                 _originalDoc := None; _deletedDoc := None |} in
  fst (findOneAndDelete down accepting this (Ok (Some milk)) emptyWorld)
  = Throw {| message := "MongoNetworkError" |}
  /\ fst (findOneAndDelete down accepting this (Ok (Some milk)) emptyWorld)
     <> Ok (Some milk).
Proof. intros down this. split; [reflexivity | discriminate]. Qed.


Lemma afterWrite_accepted (be : Backend) (r : AuditRecord) (w : World) :
  be (task_histories w) r = None ->
  afterWrite be r w
  = {| task_histories := task_histories w ++ [r];
       issued := issued w ++ [HCreate r];
       console := console w;
       clock := clock w |}.
Proof. intros H. unfold afterWrite. by rewrite H. Qed.

(** ** Create *)

(** The create branch of the after-phase of a save, on a document that
    reports [isNew] with N audited fields that are not [undefined]: the hook
    hands the store exactly one record, of kind [create]; its entries are
    the N fields that are not [undefined], in the order of [auditFields],
    each from [null] to the field's value. *)
Lemma postSave_of_new_document
    (be : Backend) (doc : Document) (w : World) (r : AuditRecord) :
  isNew doc = true ->
  r = {| model := "Task";
         model_id := _id doc;
         change_type := create;
         logs := map (fun f => {| field_name := f; from_value := JNull;
                                  to_value := field doc f |})
                     (List.filter (fun f => strictNe (field doc f) JUndefined)
                                  ["title"; "description"; "completed"; "owner"]);
         created_by := createdBy (locals doc ≫= Locals.auditUser);
         created_at := clock w |} ->
  be (task_histories w) r = None ->
  let w' := snd (postSave be doc w) in
  task_histories w' = task_histories w ++ [r]
  /\ issued w' = issued w ++ [HCreate r]
  /\ length (logs r)
     = length (List.filter (fun f => strictNe (field doc f) JUndefined) auditFields)
  /\ Forall (fun e => from_value e = JNull /\ to_value e = field doc (field_name e))
            (logs r).
Proof.
  intros Hnew -> Hbe w'. subst w'.
  rewrite postSave_create by done.
  rewrite getChangedFieldsForCreate_spec. simpl snd.
  rewrite afterWrite_accepted by exact Hbe. simpl.
  repeat split.
  - by rewrite length_map.
  - apply Forall_forall. intros e He.
    apply list_elem_of_In, in_map_iff in He as (f & <- & _). done.
Qed.

(** C2, at the task createTask builds for alice from [{ title: "Buy milk" }],
    a new document with its four audited fields set: when the after-phase
    of its save runs, the insert has cleared [isNew] and the modified paths,
    so the hook takes the document for an update without changes and hands
    nothing to the store, where the claim has one record of kind [create]
    with four entries.  That record is what the hook would write on the
    document while it still reports [isNew]. *)
Theorem created_task_is_not_audited :
  isNew newMilk = true
  /\ List.filter (fun f => strictNe (field newMilk f) JUndefined) auditFields
     = ["title"; "description"; "completed"; "owner"]
  /\ isNew (afterSave newMilk) = false
  /\ saved accepting newMilk emptyWorld = (Ok (afterSave newMilk), emptyWorld)
  /\ task_histories (snd (postSave accepting newMilk emptyWorld))
     = [ {| model := "Task";
            model_id := _id newMilk;
            change_type := create;
            logs := [ mkLog "title" JNull (JStr "Buy milk");
                      mkLog "description" JNull (JStr "");
                      mkLog "completed" JNull (JBool false);
                      mkLog "owner" JNull (User._id alice) ];
            created_by := Some {| CreatedBy.id := User._id alice;
                                  CreatedBy.name := JStr "alice@example.com";
                                  CreatedBy.role := JStr "user" |};
            created_at := clock emptyWorld |} ].
Proof.
  split; [reflexivity|]. split; [reflexivity|]. split; [reflexivity|].
  split; [apply saved_writes_nothing | reflexivity].
Qed.

(** ** In-memory update *)

(** The entries of an in-memory update name the audited fields marked
    modified, in the order of [auditFields], whatever their values. *)
Lemma update_entries_name_the_modified_fields (doc : Document) :
  map field_name (getChangedFieldsForUpdate doc)
  = List.filter (isModified doc) auditFields.
Proof.
  rewrite getChangedFieldsForUpdate_spec, map_map. simpl. apply map_id.
Qed.

(** Both values of such an entry are read from the document as it is when
    the hook runs, so they are the same value. *)
Lemma update_entries_from_is_to (doc : Document) :
  Forall (fun e => from_value e = to_value e) (getChangedFieldsForUpdate doc).
Proof.
  rewrite getChangedFieldsForUpdate_spec. apply Forall_forall. intros e He.
  apply list_elem_of_In, in_map_iff in He as (f & <- & _). done.
Qed.

(** C3, at a task whose title is changed in memory from "Buy milk" to
    "Buy bread" and then saved.  On the save pathway the write has cleared
    the modified paths when the after-phase runs, and nothing is handed to
    the store, where the claim has one record of kind [update] with the
    entry [title].  And on a document that still reports [title] as
    modified the hook writes that record with "Buy bread", the value after
    the change, as [from_value], and not "Buy milk", the value before it. *)
Theorem in_memory_update_has_no_record_of_the_old_value :
  let doc := assign milk "title" (JStr "Buy bread") in
  field milk "title" = JStr "Buy milk"
  /\ field doc "title" = JStr "Buy bread"
  /\ (forall f, isModified doc f = true <-> f = "title")
  /\ saved accepting doc emptyWorld = (Ok (afterSave doc), emptyWorld)
  /\ task_histories (snd (postSave accepting doc emptyWorld))
     = [ {| model := "Task";
            model_id := _id milk;
            change_type := update;
            logs := [ {| field_name := "title";
                         from_value := JStr "Buy bread";
                         to_value := JStr "Buy bread" |} ];
            created_by := None;
            created_at := clock emptyWorld |} ].
Proof.
  intros doc.
  split; [reflexivity|]. split; [reflexivity|]. split; [|split].
  - intros f. split.
    + unfold isModified, doc, assign. simpl. intros Hm.
      apply bool_decide_eq_true, elem_of_union in Hm as [Hm|Hm].
      * by apply elem_of_singleton in Hm.
      * by apply not_elem_of_empty in Hm.
    + intros ->. unfold isModified, doc, assign. simpl.
      apply bool_decide_eq_true, elem_of_union. left. by apply elem_of_singleton.
  - apply saved_writes_nothing.
  - reflexivity.
Qed.

(** ** Atomic conditional update *)

Lemma newValue_of_set (u : Update) (doc : Document) (f : string)
    (s : gmap string JsValue) :
  u_set u = Some s -> prop s f <> JUndefined -> newValue u doc f = prop s f.
Proof.
  intros Hs Hne. unfold newValue. rewrite Hs.
  destruct (prop s f); simpl; congruence.
Qed.

Lemma newValue_of_payload (u : Update) (doc : Document) (f : string) :
  match u_set u with Some s => prop s f | None => JUndefined end = JUndefined ->
  prop (u_top u) f <> JUndefined ->
  newValue u doc f = prop (u_top u) f.
Proof.
  intros Hs Hne. unfold newValue. rewrite Hs. simpl.
  destruct (prop (u_top u) f); simpl; congruence.
Qed.

Lemma newValue_of_document (u : Update) (doc : Document) (f : string) :
  match u_set u with Some s => prop s f | None => JUndefined end = JUndefined ->
  prop (u_top u) f = JUndefined ->
  newValue u doc f = field doc f.
Proof.
  intros Hs Ht. unfold newValue. by rewrite Hs, Ht.
Qed.

(** An entry is logged for an audited field exactly when the old value and
    the new value are not [===] and the new value is not [undefined]. *)
Lemma updateLogs_entry (originalDoc : Document) (u : Update) (doc : Document)
    (e : LogEntry) :
  In e (updateLogs originalDoc u doc)
  <-> In (field_name e) auditFields
      /\ from_value e = field originalDoc (field_name e)
      /\ to_value e = newValue u doc (field_name e)
      /\ strictEq (from_value e) (to_value e) = false
      /\ to_value e <> JUndefined.
Proof.
  rewrite updateLogs_spec, in_map_iff. split.
  - intros (f & <- & Hf). apply filter_In in Hf as (Hin & Hc).
    apply andb_true_iff in Hc as (Hne & Hdef). simpl.
    repeat split; [done| |].
    + unfold strictNe in Hne. by apply negb_true_iff in Hne.
    + intros Hu. rewrite Hu in Hdef. done.
  - intros (Hin & Hfrom & Hto & Hne & Hdef). exists (field_name e). split.
    + destruct e as [f a b]; simpl in *. by subst.
    + apply filter_In. split; [done|]. rewrite <- Hfrom, <- Hto.
      apply andb_true_iff. split.
      * unfold strictNe. by rewrite Hne.
      * destruct (to_value e); done.
Qed.

Lemma strictNe_same_primitive :
  strictNe (JBool false) (JBool false) = false
  /\ strictNe (JNum 0) (JNum 0) = false
  /\ strictNe JUndefined JNull = true
  /\ strictNe JNull JUndefined = true.
Proof. done. Qed.

(** Two [ObjectId]s holding the same identifier are still two objects. *)
Lemma strictNe_two_objects (r1 r2 : nat) (hex : string) :
  r1 <> r2 -> strictNe (JObjectId r1 hex) (JObjectId r2 hex) = true.
Proof.
  intros H. unfold strictNe. simpl. apply negb_true_iff. by apply Nat.eqb_neq.
Qed.

(** C4, at the atomic update [{ $set: { completed: true } }] of the task
    [milk], whose [completed] is [false]: the snapshot of the before-phase
    and the document the update returns are read from the database one
    after the other, so their [owner] values are two objects, and the hook
    logs two entries, [completed] from [false] to [true] and [owner] from
    the one object to the other, where the claim has the single entry
    [completed]. *)
Theorem atomic_update_of_completed_also_logs_owner :
  let this := {| getQuery := byId; getOptions := None; getUpdate := setCompleted;
                 _originalDoc := None; _deletedDoc := None |} in
  let tasks : TaskModel := fun _ => Ok (Some milk) in
  field milk "title" = field milkDone "title"
  /\ field milk "description" = field milkDone "description"
  /\ field milk "owner" = JObjectId 11 "64b000000000000000000001"
  /\ field milkDone "owner" = JObjectId 21 "64b000000000000000000001"
  /\ task_histories
       (snd (findOneAndUpdate tasks accepting this (Ok (Some milkDone)) emptyWorld))
     = [ {| model := "Task";
            model_id := _id milkDone;
            change_type := update;
            logs := [ {| field_name := "completed";
                         from_value := JBool false;
                         to_value := JBool true |};
                      {| field_name := "owner";
                         from_value := JObjectId 11 "64b000000000000000000001";
                         to_value := JObjectId 21 "64b000000000000000000001" |} ];
            created_by := None;
            created_at := clock emptyWorld |} ].
Proof. intros this tasks. repeat split. Qed.

(** ** What a hook writes *)

Lemma afterWrite_writes (be : Backend) (r : AuditRecord) (w : World)
    (P : AuditRecord -> Prop) :
  P r -> writesAtMostOne be w (afterWrite be r w) P.
Proof.
  intros HP. right. exists r. split; [done|]. unfold afterWrite.
  destruct (be (task_histories w) r); simpl; split; done.
Qed.

Lemma postSave_writes (be : Backend) (doc : Document) (w : World) :
  writesAtMostOne be w (snd (postSave be doc w))
    (fun r => model_id r = _id doc
              /\ created_by r = createdBy (locals doc ≫= Locals.auditUser)
              /\ (change_type r = create \/ change_type r = update /\ logs r <> [])).
Proof.
  destruct (isNew doc) eqn:Hnew.
  - rewrite postSave_create by done. apply afterWrite_writes. simpl. auto.
  - rewrite postSave_update by done. simpl.
    destruct (getChangedFieldsForUpdate doc) eqn:Hl; simpl.
    + by left.
    + apply afterWrite_writes. simpl.
      split; [done|]. split; [done|]. right. split; done.
Qed.

Lemma postFindOneAndUpdate_writes (be : Backend) (this : Query)
    (doc : option Document) (w : World) :
  writesAtMostOne be w (snd (postFindOneAndUpdate be this doc w))
    (fun r => created_by r = createdBy (getOptions this ≫= Options.auditUser)
              /\ change_type r = update /\ logs r <> []).
Proof.
  rewrite postFindOneAndUpdate_eq. simpl.
  destruct doc as [after|]; [|by left].
  destruct (_originalDoc this) as [originalDoc|]; [|by left].
  destruct (updateLogs originalDoc (getUpdate this) after) eqn:Hl; simpl.
  - by left.
  - apply afterWrite_writes. simpl. split; [done|]. split; done.
Qed.

Lemma postFindOneAndDelete_writes (be : Backend) (this : Query)
    (doc : option Document) (w : World) :
  writesAtMostOne be w (snd (postFindOneAndDelete be this doc w))
    (fun r => created_by r = createdBy (getOptions this ≫= Options.auditUser)
              /\ change_type r = delete /\ logs r = deleteLogs).
Proof.
  rewrite postFindOneAndDelete_eq. simpl.
  destruct (orElse (_deletedDoc this) doc) as [deletedDoc|]; [|by left].
  by apply afterWrite_writes.
Qed.

Lemma writesAtMostOne_weaken (be : Backend) (w w' : World)
    (P Q : AuditRecord -> Prop) :
  (forall r, P r -> Q r) -> writesAtMostOne be w w' P -> writesAtMostOne be w w' Q.
Proof.
  intros HPQ [->|(r & HP & Hrest)]; [by left|].
  right. exists r. split; [by apply HPQ | exact Hrest].
Qed.

(** ** The pathways when the after-phase has something to record *)

Lemma afterWrite_issued (be : Backend) (r : AuditRecord) (w : World) :
  issued (afterWrite be r w) = issued w ++ [HCreate r].
Proof. unfold afterWrite. by destruct (be (task_histories w) r). Qed.

Lemma afterWrite_stored (be : Backend) (r : AuditRecord) (w : World) :
  be (task_histories w) r = None ->
  task_histories (afterWrite be r w) = task_histories w ++ [r]
  /\ console (afterWrite be r w) = console w.
Proof. intros H. by rewrite afterWrite_accepted. Qed.

Lemma nonempty_length {A} (l : list A) : l <> [] -> (0 <? Z.of_nat (length l)) = true.
Proof. destruct l; [done|]. intros _. apply Z.ltb_lt. simpl. lia. Qed.

(** An atomic update whose before-phase found the task, that returned the
    updated task, and whose change list is not empty. *)
Lemma findOneAndUpdate_records (tasks : TaskModel) (be : Backend) (this : Query)
    (originalDoc after : Document) (w : World) :
  tasks (getQuery this) = Ok (Some originalDoc) ->
  updateLogs originalDoc (getUpdate this) after <> [] ->
  findOneAndUpdate tasks be this (Ok (Some after)) w
  = (Ok (Some after),
     afterWrite be
       {| model := "Task"; model_id := _id after; change_type := update;
          logs := updateLogs originalDoc (getUpdate this) after;
          created_by := createdBy (getOptions this ≫= Options.auditUser);
          created_at := clock w |} w).
Proof.
  intros Hq Hl.
  rewrite findOneAndUpdate_eq, preFindOneAndUpdate_eq, Hq, postFindOneAndUpdate_eq.
  cbn [snd _originalDoc getUpdate getOptions]. by rewrite nonempty_length.
Qed.

(** An atomic delete whose before-phase fetch answered and that returned,
    one of the two with a task. *)
Lemma findOneAndDelete_records (tasks : TaskModel) (be : Backend) (this : Query)
    (found doc : option Document) (deletedDoc : Document) (w : World) :
  tasks (getQuery this) = Ok found ->
  orElse found doc = Some deletedDoc ->
  findOneAndDelete tasks be this (Ok doc) w
  = (Ok doc,
     afterWrite be
       {| model := "Task"; model_id := _id deletedDoc; change_type := delete;
          logs := deleteLogs;
          created_by := createdBy (getOptions this ≫= Options.auditUser);
          created_at := clock w |} w).
Proof.
  intros Hq Hid.
  rewrite findOneAndDelete_eq, preFindOneAndDelete_eq, Hq, postFindOneAndDelete_eq.
  cbn [snd _deletedDoc getOptions]. by rewrite Hid.
Qed.

(** ** Atomic conditional delete *)



(** ** Skipped audit of an atomic update *)

(** When the document handed to the after-phase of an atomic update is
    absent, or the query holds no before-phase snapshot, the hook ends with
    [next()] and the world is as it was: no insert is issued, nothing is
    stored, nothing is reported, and the caller gets the primary result.
    Over the whole pathway: when the before-phase fetch answers, and it
    found no document or the update matched none, the caller gets the
    result of the update and the world is as it was. *)
Lemma update_without_target_or_snapshot_writes_nothing
    (tasks : TaskModel) (be : Backend) (this : Query) (doc : option Document)
    (primary : Result (option Document)) (w : World) :
  (doc = None \/ _originalDoc this = None ->
   postFindOneAndUpdate be this doc w = (Ok (NextCalled None), w)
   /\ delivered doc (fst (postFindOneAndUpdate be this doc w)) = Ok doc)
  /\ (forall found, tasks (getQuery this) = Ok found ->
      found = None \/ primary = Ok None ->
      findOneAndUpdate tasks be this primary w = (primary, w)).
Proof.
  split.
  - intros H. rewrite postFindOneAndUpdate_eq. simpl. split; [|done].
    destruct H as [-> | ->]; [done|]. by destruct doc.
  - intros found Hq H. rewrite findOneAndUpdate_eq, preFindOneAndUpdate_eq, Hq.
    destruct primary as [result|e]; [|done].
    rewrite postFindOneAndUpdate_eq. simpl.
    destruct H as [-> | Hp]; [by destruct result|].
    by inversion Hp.
Qed.

(** C7. An atomic update whose before-phase fetch raises, so that the
    snapshot is not obtained: through the pathway and through updateTask.
    The audit store is available and the update itself would return the
    updated task, yet the operation ends with the error of the fetch: the
    caller gets the error and not the result of the update, and the
    controller hands it to [next] instead of answering 200.  Nothing is
    written and nothing is reported on the console.  The same update with a
    fetch that answers but finds no task returns the updated task. *)
Theorem update_fetch_error_reaches_the_caller :
  let down : TaskModel := fun _ => Throw {| message := "MongoNetworkError" |} in
  let nothing : TaskModel := fun _ => Ok None in
  let this := {| getQuery := byId; getOptions := None; getUpdate := setCompleted;
                 _originalDoc := None; _deletedDoc := None |} in
  let req := request ann {[ "completed" := JBool true ]} in
  findOneAndUpdate down accepting this (Ok (Some milkDone)) emptyWorld
  = (Throw {| message := "MongoNetworkError" |}, emptyWorld)
  /\ fst (findOneAndUpdate down accepting this (Ok (Some milkDone)) emptyWorld)
     <> Ok (Some milkDone)
  /\ findOneAndUpdate nothing accepting this (Ok (Some milkDone)) emptyWorld
     = (Ok (Some milkDone), emptyWorld)
  /\ fst (updateTask fetchDown req idle)
     = Next (Raised {| message := "MongoNetworkError" |})
  /\ audit (snd (updateTask fetchDown req idle)) = emptyWorld
  /\ fst (updateTask sampleDb req idle)
     = Responded 200 "Task updated successfully" (TaskData milkDone).
Proof.
  intros down nothing this req.
  split; [reflexivity|]. split; [discriminate|]. split; [reflexivity|].
  split; [vm_compute; reflexivity|]. split; vm_compute; reflexivity.
Qed.

(** ** Sequences of operations: what is issued and what is stored *)

Lemma grows_refl (P : AuditRecord -> Prop) (w : World) : grows P w w.
Proof.
  exists [], []. rewrite !app_nil_r. repeat split; try done; constructor.
Qed.

Lemma grows_trans (P : AuditRecord -> Prop) (w1 w2 w3 : World) :
  grows P w1 w2 -> grows P w2 w3 -> grows P w1 w3.
Proof.
  intros (ops1 & rs1 & Hi1 & Ht1 & Hf1 & Hs1 & Hp1)
         (ops2 & rs2 & Hi2 & Ht2 & Hf2 & Hs2 & Hp2).
  exists (ops1 ++ ops2), (rs1 ++ rs2).
  rewrite Hi2, Hi1, Ht2, Ht1, !app_assoc.
  repeat split; try done.
  - by apply Forall_app.
  - unfold created in *. rewrite omap_app. by apply sublist_app.
  - unfold created in *. rewrite omap_app. by apply Forall_app.
Qed.

Lemma grows_afterWrite (P : AuditRecord -> Prop) (be : Backend) (r : AuditRecord)
    (w : World) :
  P r -> grows P w (afterWrite be r w).
Proof.
  intros HP. unfold afterWrite.
  destruct (be (task_histories w) r).
  - exists [HCreate r], []. simpl. rewrite app_nil_r.
    repeat split; try done.
    + constructor; [|constructor]. simpl. auto.
    + apply sublist_nil_l.
    + by constructor.
  - exists [HCreate r], [r]. simpl.
    repeat split; try done.
    + constructor; [|constructor]. simpl. auto.
    + by constructor.
Qed.

Lemma grows_noteIssued (P : AuditRecord -> Prop) (op : HistoryOp) (w : World) :
  queries op = true -> grows P w (noteIssued op w).
Proof.
  intros Hq. exists [op], []. simpl. rewrite app_nil_r.
  destruct op; try discriminate Hq; simpl;
    (repeat split; try done; constructor; [|constructor]; simpl; auto).
Qed.

Lemma grows_postSave (be : Backend) (doc : Document) (w : World) :
  grows updateHasChanges w (snd (postSave be doc w)).
Proof.
  destruct (isNew doc) eqn:Hnew.
  - rewrite postSave_create by done. by apply grows_afterWrite.
  - rewrite postSave_update by done. simpl.
    destruct (getChangedFieldsForUpdate doc) eqn:Hl; simpl.
    + apply grows_refl.
    + apply grows_afterWrite. by intros _.
Qed.

Lemma grows_postFindOneAndUpdate (be : Backend) (this : Query)
    (doc : option Document) (w : World) :
  grows updateHasChanges w (snd (postFindOneAndUpdate be this doc w)).
Proof.
  rewrite postFindOneAndUpdate_eq. simpl.
  destruct doc as [after|]; [|apply grows_refl].
  destruct (_originalDoc this) as [originalDoc|]; [|apply grows_refl].
  destruct (updateLogs originalDoc (getUpdate this) after) eqn:Hl; simpl.
  - apply grows_refl.
  - apply grows_afterWrite. by intros _.
Qed.

Lemma grows_postFindOneAndDelete (be : Backend) (this : Query)
    (doc : option Document) (w : World) :
  grows updateHasChanges w (snd (postFindOneAndDelete be this doc w)).
Proof.
  rewrite postFindOneAndDelete_eq. simpl.
  destruct (orElse (_deletedDoc this) doc); [|apply grows_refl].
  by apply grows_afterWrite.
Qed.

Lemma grows_getAuditLogs (rd : Reader) (req : AuditLogsRequest) (w : World) :
  grows updateHasChanges w (snd (getAuditLogs rd req w)).
Proof.
  unfold getAuditLogs, tryCatch, TaskHistory_countDocuments, TaskHistory_find,
    mbind, M_bind, mret, M_ret. cbv zeta.
  destruct (answerCount rd _ _); simpl.
  - destruct (answerFind rd _ _ _ _); simpl;
      (eapply grows_trans; [|by apply grows_noteIssued]); by apply grows_noteIssued.
  - by apply grows_noteIssued.
Qed.

Lemma grows_getTaskAuditLogs (rd : Reader) (taskId : string) (w : World) :
  grows updateHasChanges w (snd (getTaskAuditLogs rd taskId w)).
Proof.
  unfold getTaskAuditLogs, tryCatch, TaskHistory_find, mbind, M_bind, mret, M_ret.
  destruct (answerFind rd _ _ _ _); simpl; by apply grows_noteIssued.
Qed.

Lemma grows_step (env : Env) (ev : Event) (w : World) :
  grows updateHasChanges w (step env ev w).
Proof.
  destruct ev as [doc|this primary|this primary|filter|req|taskId]; simpl.
  - apply grows_postSave.
  - rewrite findOneAndUpdate_eq.
    destruct (preFindOneAndUpdate _ _ _) as [[this'|e] w1]; [|apply grows_refl].
    destruct primary; [apply grows_postFindOneAndUpdate | apply grows_refl].
  - rewrite findOneAndDelete_eq.
    destruct (preFindOneAndDelete _ _ _) as [[this'|e] w1]; [|apply grows_refl].
    destruct primary; [apply grows_postFindOneAndDelete | apply grows_refl].
  - apply grows_refl.
  - apply grows_getAuditLogs.
  - apply grows_getTaskAuditLogs.
Qed.

Lemma grows_run (trace : list (Env * Event)) (w : World) :
  grows updateHasChanges w (run trace w).
Proof.
  revert w. induction trace as [|[env ev] rest IH]; intros w; simpl.
  - apply grows_refl.
  - eapply grows_trans; [apply grows_step | apply IH].
Qed.

(** A retrieval leaves the collection as it is. *)
Lemma retrieval_reads_only (rd : Reader) (req : AuditLogsRequest) (taskId : string)
    (w : World) :
  task_histories (snd (getAuditLogs rd req w)) = task_histories w
  /\ task_histories (snd (getTaskAuditLogs rd taskId w)) = task_histories w.
Proof.
  unfold getAuditLogs, getTaskAuditLogs, tryCatch, TaskHistory_countDocuments,
    TaskHistory_find, mbind, M_bind, mret, M_ret. cbv zeta. split.
  - destruct (answerCount rd _ _); simpl; [|done].
    by destruct (answerFind rd _ _ _ _).
  - by destruct (answerFind rd _ _ _ _).
Qed.

Lemma filter_none {A} (p : A -> bool) (l : list A) :
  (forall x, In x l -> p x = false) -> List.filter p l = [].
Proof.
  induction l as [|x l IH]; intros H; simpl; [done|].
  rewrite (H x) by (by left). apply IH. intros y Hy. apply H. by right.
Qed.

Lemma Forall_of_sublist {A} (P : A -> Prop) (l k : list A) :
  sublist l k -> Forall P k -> Forall P l.
Proof.
  intros Hs Hk. apply Forall_forall. intros x Hx.
  rewrite Forall_forall in Hk. apply Hk. by eapply elem_of_sublist.
Qed.

(** ** Suppression of empty updates *)

(** The guards of the two hooks.  (1) The after-phase of a save on a
    document that is not new and has no audited field marked modified leaves
    the world as it was.  (2) So does the after-phase of an atomic update
    whose computed change list is empty.  (3) Over any sequence of
    operations, every record handed to the store, and every record stored,
    that is of kind [update] has a change list that is not empty.  (4) On a
    document that reports [isNew] the after-phase of a save hands the store
    a [create] record even when no audited field is set and the change list
    is empty. *)
Lemma empty_updates_are_suppressed
    (be : Backend) (doc : Document) (this : Query) (originalDoc after : Document)
    (trace : list (Env * Event)) (w : World) :
  (isNew doc = false ->
   (forall f, In f auditFields -> isModified doc f = false) ->
   postSave be doc w = (Ok (NextCalled None), w))
  /\ (_originalDoc this = Some originalDoc ->
      updateLogs originalDoc (getUpdate this) after = [] ->
      postFindOneAndUpdate be this (Some after) w = (Ok (NextCalled None), w))
  /\ (exists ops rs,
        issued (run trace w) = issued w ++ ops
        /\ task_histories (run trace w) = task_histories w ++ rs
        /\ Forall (fun r => change_type r = update -> logs r <> []) (created ops)
        /\ Forall (fun r => change_type r = update -> logs r <> []) rs)
  /\ (isNew doc = true ->
      (forall f, In f auditFields -> field doc f = JUndefined) ->
      exists r,
        change_type r = create /\ logs r = []
        /\ issued (snd (postSave be doc w)) = issued w ++ [HCreate r]
        /\ (be (task_histories w) r = None ->
            task_histories (snd (postSave be doc w)) = task_histories w ++ [r])).
Proof.
  split; [|split; [|split]].
  - intros Hnew Hmod. rewrite postSave_update by done.
    rewrite getChangedFieldsForUpdate_spec, filter_none by done. done.
  - intros Ho Hl. by rewrite postFindOneAndUpdate_eq, Ho, Hl.
  - destruct (grows_run trace w) as (ops & rs & Hi & Ht & _ & Hs & Hp).
    exists ops, rs. repeat split; try done.
    by eapply Forall_of_sublist.
  - intros Hnew Hundef. rewrite postSave_create by done.
    rewrite getChangedFieldsForCreate_spec, filter_none.
    + exists {| model := "Task"; model_id := _id doc; change_type := create;
                logs := [];
                created_by := createdBy (locals doc ≫= Locals.auditUser);
                created_at := clock w |}.
      simpl. split; [reflexivity|]. split; [reflexivity|].
      unfold afterWrite.
      destruct (be (task_histories w) _) eqn:Hbe; simpl; split; done.
    + intros f Hf. by rewrite Hundef.
Qed.

(** C5, at the save of the new task [newMilk]: the document the after-phase
    receives is not new and has no modified path, so its change list is the
    empty list of an update and the guard that suppresses empty updates
    suppresses the record of the create: no insert is issued, where the
    claim has the [create] record written unconditionally. *)
Theorem create_record_is_suppressed_as_an_empty_update :
  isNew newMilk = true
  /\ isNew (afterSave newMilk) = false
  /\ getChangedFieldsForUpdate (afterSave newMilk) = []
  /\ issued (snd (saved accepting newMilk emptyWorld)) = []
  /\ task_histories (snd (saved accepting newMilk emptyWorld)) = [].
Proof.
  split; [reflexivity|]. split; [reflexivity|].
  split; [apply getChangedFieldsForUpdate_afterSave|].
  by rewrite saved_writes_nothing.
Qed.

(** ** Absent actor *)

(** What the hook of a save hands to the store when it has something to
    record: the document reports [isNew], or an audited field as
    modified. *)
Lemma postSave_records (be : Backend) (doc : Document) (w : World) :
  isNew doc = true \/ getChangedFieldsForUpdate doc <> [] ->
  postSave be doc w
  = (Ok (NextCalled None),
     afterWrite be
       {| model := "Task"; model_id := _id doc;
          change_type := if isNew doc then create else update;
          logs := if isNew doc then getChangedFieldsForCreate doc
                  else getChangedFieldsForUpdate doc;
          created_by := createdBy (locals doc ≫= Locals.auditUser);
          created_at := clock w |} w).
Proof.
  intros H. destruct (isNew doc) eqn:Hnew.
  - by rewrite postSave_create.
  - destruct H as [H|H]; [done|].
    rewrite postSave_update by done. by rewrite nonempty_length.
Qed.

(** C8. With no [auditUser] on the document's [$locals] (save) or in the
    query's options (atomic update, atomic delete), nothing is treated as
    an error and the record is written as it would be with an actor, with
    [created_by] equal to [null].  Whatever record is handed to the store
    has [created_by] null.  And the record is handed over whenever the
    pathway has something to record: the hook of a save for a document that
    reports [isNew] or a modified audited field; an atomic update whose
    before-phase found the task, that returned the updated task and whose
    change list is not empty; an atomic delete with an entity identified.
    When the store takes the record it is stored and nothing is reported on
    the console; the caller gets the result of the primary mutation. *)
Theorem absent_actor_is_recorded_as_null
    (tasks : TaskModel) (be : Backend) (doc : Document) (this : Query)
    (found result : option Document) (w : World) :
  let anonymous (r : AuditRecord) := created_by r = None in
  let written (r : AuditRecord) (w' : World) :=
    anonymous r
    /\ issued w' = issued w ++ [HCreate r]
    /\ (be (task_histories w) r = None ->
        task_histories w' = task_histories w ++ [r] /\ console w' = console w) in
  (locals doc ≫= Locals.auditUser = None ->
   fst (postSave be doc w) = Ok (NextCalled None)
   /\ writesAtMostOne be w (snd (postSave be doc w)) anonymous
   /\ (isNew doc = true \/ getChangedFieldsForUpdate doc <> [] ->
       exists r, model_id r = _id doc /\ written r (snd (postSave be doc w))))
  /\ (getOptions this ≫= Options.auditUser = None ->
      tasks (getQuery this) = Ok found ->
      fst (findOneAndUpdate tasks be this (Ok result) w) = Ok result
      /\ writesAtMostOne be w (snd (findOneAndUpdate tasks be this (Ok result) w))
           anonymous
      /\ (forall originalDoc after,
            found = Some originalDoc -> result = Some after ->
            updateLogs originalDoc (getUpdate this) after <> [] ->
            exists r, model_id r = _id after /\ change_type r = update
              /\ logs r = updateLogs originalDoc (getUpdate this) after
              /\ written r (snd (findOneAndUpdate tasks be this (Ok result) w))))
  /\ (getOptions this ≫= Options.auditUser = None ->
      tasks (getQuery this) = Ok found ->
      fst (findOneAndDelete tasks be this (Ok result) w) = Ok result
      /\ writesAtMostOne be w (snd (findOneAndDelete tasks be this (Ok result) w))
           anonymous
      /\ (forall deletedDoc,
            orElse found result = Some deletedDoc ->
            exists r, model_id r = _id deletedDoc /\ change_type r = delete
              /\ written r (snd (findOneAndDelete tasks be this (Ok result) w)))).
Proof.
  intros anonymous written. subst anonymous written. cbv beta.
  split; [|split].
  - intros Hno. split; [apply postSave_signal|]. split.
    + eapply writesAtMostOne_weaken; [|apply postSave_writes].
      intros r (_ & Hc & _). by rewrite Hc, Hno.
    + intros Hrec. rewrite (postSave_records be doc w Hrec), Hno. cbn [snd].
      match goal with |- context [afterWrite be ?r w] => exists r end. split; [reflexivity|]. split; [reflexivity|].
      split; [apply afterWrite_issued|]. apply afterWrite_stored.
  - intros Hno Hq. split; [|split].
    + rewrite findOneAndUpdate_eq, preFindOneAndUpdate_eq, Hq. done.
    + rewrite findOneAndUpdate_eq, preFindOneAndUpdate_eq, Hq. cbn [snd].
      eapply writesAtMostOne_weaken; [|apply postFindOneAndUpdate_writes].
      intros r (Hc & _). cbn [getOptions] in Hc. by rewrite Hc, Hno.
    + intros originalDoc after -> -> Hl.
      rewrite (findOneAndUpdate_records tasks be this originalDoc after w Hq Hl), Hno.
      cbn [snd]. match goal with |- context [afterWrite be ?r w] => exists r end. split; [reflexivity|]. split; [reflexivity|].
      split; [reflexivity|]. split; [reflexivity|].
      split; [apply afterWrite_issued|]. apply afterWrite_stored.
  - intros Hno Hq. split; [|split].
    + rewrite findOneAndDelete_eq, preFindOneAndDelete_eq, Hq. done.
    + rewrite findOneAndDelete_eq, preFindOneAndDelete_eq, Hq. cbn [snd].
      eapply writesAtMostOne_weaken; [|apply postFindOneAndDelete_writes].
      intros r (Hc & _). cbn [getOptions] in Hc. by rewrite Hc, Hno.
    + intros deletedDoc Hid.
      rewrite (findOneAndDelete_records tasks be this found result deletedDoc w Hq Hid),
        Hno.
      cbn [snd]. match goal with |- context [afterWrite be ?r w] => exists r end. split; [reflexivity|]. split; [reflexivity|].
      split; [reflexivity|]. split; [apply afterWrite_issued|]. apply afterWrite_stored.
Qed.

Lemma absent_actor_is_recorded_as_null_witness :
  let this := {| getQuery := byId; getOptions := None; getUpdate := setCompleted;
                 _originalDoc := None; _deletedDoc := None |} in
  let tasks : TaskModel := fun _ => Ok (Some milk) in
  let draft := {| _id := _id milk; _doc := _doc milk; isNew := true;
                  modifiedPaths := ∅; locals := None |} in
  (exists r, model_id r = _id draft /\ created_by r = None
     /\ task_histories (snd (postSave accepting draft emptyWorld)) = [r]
     /\ console (snd (postSave accepting draft emptyWorld)) = [])
  /\ (exists r, change_type r = update /\ created_by r = None
        /\ task_histories
             (snd (findOneAndUpdate tasks accepting this (Ok (Some milkDone))
                     emptyWorld)) = [r]
        /\ console (snd (findOneAndUpdate tasks accepting this (Ok (Some milkDone))
                           emptyWorld)) = [])
  /\ (exists r, change_type r = delete /\ created_by r = None
        /\ task_histories
             (snd (findOneAndDelete tasks accepting this (Ok (Some milkDone))
                     emptyWorld)) = [r]
        /\ console (snd (findOneAndDelete tasks accepting this (Ok (Some milkDone))
                           emptyWorld)) = []).
Proof.
  intros this tasks draft.
  destruct (absent_actor_is_recorded_as_null tasks accepting draft this
              (Some milk) (Some milkDone) emptyWorld) as (H1 & H2 & H3).
  split; [|split].
  - destruct (H1 eq_refl) as (_ & _ & Hw).
    destruct (Hw (or_introl eq_refl)) as (r & Hid & Hc & _ & Hs).
    exists r. split; [exact Hid|]. split; [exact Hc|]. apply Hs. reflexivity.
  - destruct (H2 eq_refl eq_refl) as (_ & _ & Hw).
    destruct (Hw milk milkDone eq_refl eq_refl) as (r & _ & Hk & _ & Hc & _ & Hs).
    { vm_compute. discriminate. }
    exists r. split; [exact Hk|]. split; [exact Hc|]. apply Hs. reflexivity.
  - destruct (H3 eq_refl eq_refl) as (_ & _ & Hw).
    destruct (Hw milk eq_refl) as (r & _ & Hk & Hc & _ & Hs).
    exists r. split; [exact Hk|]. split; [exact Hc|]. apply Hs. reflexivity.
Defined.

(** ** The audit collection is append-only *)

Lemma retrieval_issues_reads (rd : Reader) (req : AuditLogsRequest) (taskId : string)
    (w : World) :
  (exists ops, issued (snd (getAuditLogs rd req w)) = issued w ++ ops
               /\ Forall (fun op => queries op = true) ops)
  /\ (exists ops, issued (snd (getTaskAuditLogs rd taskId w)) = issued w ++ ops
                  /\ Forall (fun op => queries op = true) ops).
Proof.
  unfold getAuditLogs, getTaskAuditLogs, tryCatch, TaskHistory_countDocuments,
    TaskHistory_find, mbind, M_bind, mret, M_ret. cbv zeta. split.
  - destruct (answerCount rd _ _); simpl.
    + destruct (answerFind rd _ _ _ _); simpl; eexists;
        (split; [by rewrite <- app_assoc|]); by repeat constructor.
    + eexists. split; [done|]. by repeat constructor.
  - destruct (answerFind rd _ _ _ _); simpl; eexists;
      (split; [done|]); by repeat constructor.
Qed.

(** C9. Over any sequence of task mutations (save, atomic update, atomic
    delete, deleteMany) and audit-log retrievals, from any state: every
    operation issued on the audit collection is an insert of a new record
    or a read, none is an update, a replacement or a delete; the collection
    after the sequence is the collection before it followed by records that
    were inserted; and a retrieval issues reads only and leaves the
    collection as it is. *)
Theorem audit_records_are_only_appended
    (trace : list (Env * Event)) (env : Env) (req : AuditLogsRequest)
    (taskId : string) (w : World) :
  (exists ops rs,
     issued (run trace w) = issued w ++ ops
     /\ Forall (fun op => rewrites op = false
                          /\ (appends op = true \/ queries op = true)) ops
     /\ task_histories (run trace w) = task_histories w ++ rs
     /\ sublist rs (created ops))
  /\ (exists ops,
        issued (step env (GetAuditLogs req) w) = issued w ++ ops
        /\ Forall (fun op => queries op = true) ops
        /\ task_histories (step env (GetAuditLogs req) w) = task_histories w)
  /\ (exists ops,
        issued (step env (GetTaskAuditLogs taskId) w) = issued w ++ ops
        /\ Forall (fun op => queries op = true) ops
        /\ task_histories (step env (GetTaskAuditLogs taskId) w) = task_histories w).
Proof.
  split; [|split].
  - destruct (grows_run trace w) as (ops & rs & Hi & Ht & Hf & Hs & _).
    by exists ops, rs.
  - destruct (retrieval_issues_reads (reader env) req taskId w)
      as ((ops & Hi & Hq) & _).
    exists ops. repeat split; try done.
    apply (retrieval_reads_only (reader env) req taskId w).
  - destruct (retrieval_issues_reads (reader env) req taskId w)
      as (_ & (ops & Hi & Hq)).
    exists ops. repeat split; try done.
    apply (retrieval_reads_only (reader env) req taskId w).
Qed.

(** ** The actor recorded for a controller call *)

Lemma auditUser_role (user : User.t) :
  Forall validRole (User.roles user) ->
  UserContext.role (auditUser user)
  = JStr (match User.roles user with r :: _ => r | [] => "user" end).
Proof.
  intros Hv. unfold auditUser. simpl.
  destruct (User.roles user) as [|r rest]; [done|].
  apply Forall_cons in Hv as [[-> | ->] _]; done.
Qed.

(** * Further properties of the hooks *)

Lemma filter_sublist {A} (p : A -> bool) (l : list A) : sublist (List.filter p l) l.
Proof.
  induction l as [|x l IH]; simpl; [constructor|].
  destruct (p x); by constructor.
Qed.

Lemma names_of_entries {A} (g : string -> A -> LogEntry) (a : A) (l : list string) :
  (forall f, field_name (g f a) = f) ->
  map field_name (map (fun f => g f a) l) = l.
Proof.
  intros Hg. rewrite map_map. induction l as [|f l IH]; simpl; [done|].
  by rewrite Hg, IH.
Qed.

Lemma create_entry_names (doc : Document) :
  map field_name (getChangedFieldsForCreate doc)
  = List.filter (fun f => strictNe (field doc f) JUndefined) auditFields.
Proof. rewrite getChangedFieldsForCreate_spec, map_map. simpl. apply map_id. Qed.

Lemma update_hook_entry_names (originalDoc : Document) (u : Update) (doc : Document) :
  map field_name (updateLogs originalDoc u doc)
  = List.filter (fun f => strictNe (field originalDoc f) (newValue u doc f)
                          && strictNe (newValue u doc f) JUndefined) auditFields.
Proof. rewrite updateLogs_spec, map_map. simpl. apply map_id. Qed.

Lemma auditFields_NoDup : NoDup auditFields.
Proof.
  unfold auditFields. repeat (constructor; [by (rewrite ?elem_of_cons, ?elem_of_nil; intuition discriminate)|]).
  constructor.
Qed.

(** X1. Whatever the document, the snapshot and the payload, the entries of
    each of the three diffs name audited fields only, in the order title,
    description, completed, owner, and none twice: a change list has at
    most four entries and a path outside [auditFields] set by an update is
    never logged. *)
Theorem entries_name_audited_fields_in_order
    (originalDoc doc : Document) (u : Update) :
  let names (l : list LogEntry) := map field_name l in
  (sublist (names (getChangedFieldsForCreate doc)) auditFields
   /\ sublist (names (getChangedFieldsForUpdate doc)) auditFields
   /\ sublist (names (updateLogs originalDoc u doc)) auditFields)
  /\ (NoDup (names (getChangedFieldsForCreate doc))
      /\ NoDup (names (getChangedFieldsForUpdate doc))
      /\ NoDup (names (updateLogs originalDoc u doc)))
  /\ (length (getChangedFieldsForCreate doc) <= 4
      /\ length (getChangedFieldsForUpdate doc) <= 4
      /\ length (updateLogs originalDoc u doc) <= 4)%nat
  /\ (forall e, In e (updateLogs originalDoc u doc) ->
      field_name e <> "updatedAt" /\ field_name e <> "_id").
Proof.
  intros names. subst names. cbv beta.
  rewrite create_entry_names, update_entries_name_the_modified_fields,
    update_hook_entry_names.
  assert (forall p, sublist (List.filter p auditFields) auditFields) as Hs
    by (intros p; apply filter_sublist).
  split; [by repeat split|].
  split.
  { repeat split; (eapply sublist_NoDup; [apply auditFields_NoDup | apply Hs]). }
  split.
  { rewrite <- (length_map field_name (getChangedFieldsForCreate doc)),
      <- (length_map field_name (getChangedFieldsForUpdate doc)),
      <- (length_map field_name (updateLogs originalDoc u doc)).
    rewrite create_entry_names, update_entries_name_the_modified_fields,
      update_hook_entry_names.
    repeat split; (etransitivity; [apply sublist_length, Hs | simpl; lia]). }
  intros e He. apply updateLogs_entry in He as (Hin & _).
  unfold auditFields in Hin. simpl in Hin.
  split; intros Heq; rewrite Heq in Hin; intuition discriminate.
Qed.

Lemma entries_name_audited_fields_in_order_witness :
  let e := {| field_name := "completed"; from_value := JBool false;
              to_value := JBool true |} in
  In e (updateLogs milk setCompleted milkDone)
  /\ field_name e <> "updatedAt" /\ field_name e <> "_id".
Proof.
  intros e.
  assert (In e (updateLogs milk setCompleted milkDone)) as Hin
    by (left; vm_compute; reflexivity).
  split; [exact Hin|].
  exact (proj2 (proj2 (proj2
           (entries_name_audited_fields_in_order milk milkDone setCompleted))) e Hin).
Defined.

(** X2. An entry of an atomic update never reports [undefined] as the new
    value and never two values that are [===].  So a path that is in
    neither the payload nor the returned document, for instance one the
    update removed, is not logged even when the snapshot had a value for
    it; and a path whose resolved new value is [===] the snapshot's is not
    logged. *)
Theorem update_hook_logs_real_changes_only
    (originalDoc doc : Document) (u : Update) :
  Forall (fun e => to_value e <> JUndefined
                   /\ strictEq (from_value e) (to_value e) = false)
         (updateLogs originalDoc u doc)
  /\ (forall f, newValue u doc f = JUndefined ->
      ~ In f (map field_name (updateLogs originalDoc u doc)))
  /\ (forall f, strictEq (field originalDoc f) (newValue u doc f) = true ->
      ~ In f (map field_name (updateLogs originalDoc u doc))).
Proof.
  split; [|split].
  - apply Forall_forall. intros e He.
    apply list_elem_of_In, updateLogs_entry in He as (_ & _ & _ & Hne & Hdef). done.
  - intros f Hu Hin. rewrite update_hook_entry_names in Hin.
    apply filter_In in Hin as (_ & Hc). rewrite Hu in Hc.
    apply andb_true_iff in Hc as (_ & Hc). done.
  - intros f Heq Hin. rewrite update_hook_entry_names in Hin.
    apply filter_In in Hin as (_ & Hc).
    apply andb_true_iff in Hc as (Hc & _). unfold strictNe in Hc.
    by rewrite Heq in Hc.
Qed.

Lemma update_hook_logs_real_changes_only_witness :
  let same := {| u_set := Some {[ "completed" := JBool false ]}; u_top := ∅ |} in
  let stripped := {| _id := _id milkDone;
                     _doc := {[ "title" := JStr "Buy milk" ]};
                     isNew := false; modifiedPaths := ∅; locals := None |} in
  field milk "description" = JStr ""
  /\ ~ In "description" (map field_name (updateLogs milk same stripped))
  /\ ~ In "completed" (map field_name (updateLogs milk same stripped)).
Proof.
  intros same stripped.
  destruct (update_hook_logs_real_changes_only milk stripped same) as (_ & H2 & H3).
  split; [reflexivity|]. split; [apply H2 | apply H3]; reflexivity.
Defined.

(** Each after-phase hook leaves the world as it was or as one insert of a
    well-shaped record leaves it. *)
Lemma create_entries_shape (doc : Document) :
  Forall (fun e => from_value e = JNull /\ to_value e <> JUndefined)
         (getChangedFieldsForCreate doc).
Proof.
  rewrite getChangedFieldsForCreate_spec. apply Forall_forall. intros e He.
  apply list_elem_of_In, in_map_iff in He as (f & <- & Hf).
  apply filter_In in Hf as (_ & Hf). simpl. split; [done|].
  intros Hu. rewrite Hu in Hf. done.
Qed.

Lemma postSave_cases (be : Backend) (doc : Document) (w : World) :
  snd (postSave be doc w) = w
  \/ exists r, wellShaped r /\ snd (postSave be doc w) = afterWrite be r w.
Proof.
  destruct (isNew doc) eqn:Hnew.
  - rewrite postSave_create by done. right. eexists. split; cycle 1; [reflexivity|].
    split; [done|]. cbn [change_type logs]. split; [|apply create_entries_shape].
    rewrite create_entry_names. apply filter_sublist.
  - rewrite postSave_update by done. simpl.
    destruct (getChangedFieldsForUpdate doc) eqn:Hl; simpl; [by left|].
    right. eexists. split; cycle 1; [reflexivity|].
    split; [done|]. cbn [change_type logs]. split; [|done].
    rewrite <- Hl, update_entries_name_the_modified_fields. apply filter_sublist.
Qed.

Lemma postFindOneAndUpdate_cases (be : Backend) (this : Query)
    (doc : option Document) (w : World) :
  snd (postFindOneAndUpdate be this doc w) = w
  \/ exists r, wellShaped r
       /\ snd (postFindOneAndUpdate be this doc w) = afterWrite be r w.
Proof.
  rewrite postFindOneAndUpdate_eq. simpl.
  destruct doc as [after|]; [|by left].
  destruct (_originalDoc this) as [originalDoc|]; [|by left].
  destruct (updateLogs originalDoc (getUpdate this) after) eqn:Hl; simpl; [by left|].
  right. eexists. split; cycle 1; [reflexivity|].
  split; [done|]. cbn [change_type logs]. split; [|done].
  rewrite <- Hl, update_hook_entry_names. apply filter_sublist.
Qed.

Lemma postFindOneAndDelete_cases (be : Backend) (this : Query)
    (doc : option Document) (w : World) :
  snd (postFindOneAndDelete be this doc w) = w
  \/ exists r, wellShaped r
       /\ snd (postFindOneAndDelete be this doc w) = afterWrite be r w.
Proof.
  rewrite postFindOneAndDelete_eq. simpl.
  destruct (orElse (_deletedDoc this) doc); [|by left].
  right. eexists. split; cycle 1; [reflexivity|]. by split.
Qed.

Lemma refusal_of_cases (be : Backend) (w w' : World) :
  (w' = w \/ exists r, wellShaped r /\ w' = afterWrite be r w) ->
  (forall r e, issued w' = issued w ++ [HCreate r] ->
     be (task_histories w) r = Some e ->
     task_histories w' = task_histories w
     /\ console w' = console w ++ [("Error creating audit log:", e)])
  /\ (console w' = console w
      \/ exists e, console w' = console w ++ [("Error creating audit log:", e)]).
Proof.
  intros [-> | (r0 & _ & ->)].
  - split; [|by left]. intros r e Hi _. exfalso.
    apply (f_equal length) in Hi. rewrite length_app in Hi. simpl in Hi. lia.
  - split.
    + intros r e Hi Hbe.
      assert (issued (afterWrite be r0 w) = issued w ++ [HCreate r0]) as Hi0
        by (unfold afterWrite; by destruct (be (task_histories w) r0)).
      rewrite Hi0 in Hi. apply app_inv_head in Hi. injection Hi as ->.
      unfold afterWrite. by rewrite Hbe.
    + unfold afterWrite. destruct (be (task_histories w) r0); simpl; eauto.
Qed.

(** X4. On each of the three after-phase hooks: when the insert the hook
    issues is refused by the store with an error, nothing is stored and the
    error is reported once, as one console line labelled "Error creating
    audit log:"; and the hook never puts anything else on the console. *)
Theorem refused_insert_is_reported_once
    (be : Backend) (doc : Document) (this : Query) (result : option Document)
    (w : World) :
  let reported (w' : World) :=
    (forall r e, issued w' = issued w ++ [HCreate r] ->
       be (task_histories w) r = Some e ->
       task_histories w' = task_histories w
       /\ console w' = console w ++ [("Error creating audit log:", e)])
    /\ (console w' = console w
        \/ exists e, console w' = console w ++ [("Error creating audit log:", e)]) in
  reported (snd (postSave be doc w))
  /\ reported (snd (postFindOneAndUpdate be this result w))
  /\ reported (snd (postFindOneAndDelete be this result w)).
Proof.
  intros reported. subst reported. cbv beta.
  split; [|split]; apply refusal_of_cases.
  - apply postSave_cases.
  - apply postFindOneAndUpdate_cases.
  - apply postFindOneAndDelete_cases.
Qed.

Lemma refused_insert_is_reported_once_witness :
  let this := {| getQuery := byId; getOptions := None; getUpdate := setCompleted;
                 _originalDoc := Some milk; _deletedDoc := Some milk |} in
  task_histories (snd (postFindOneAndDelete unreachable this (Some milk) emptyWorld)) = []
  /\ console (snd (postFindOneAndDelete unreachable this (Some milk) emptyWorld))
     = [("Error creating audit log:", {| message := "MongoNetworkError" |})].
Proof.
  intros this.
  destruct (refused_insert_is_reported_once unreachable milk this (Some milk)
              emptyWorld) as (_ & _ & H & _).
  apply (H {| model := "Task"; model_id := _id milk; change_type := delete;
              logs := deleteLogs; created_by := None;
              created_at := clock emptyWorld |}
           {| message := "MongoNetworkError" |}); reflexivity.
Defined.

Lemma grows_of_cases (P : AuditRecord -> Prop) (be : Backend) (w w' : World) :
  (w' = w \/ exists r, P r /\ w' = afterWrite be r w) -> grows P w w'.
Proof.
  intros [-> | (r & HP & ->)]; [apply grows_refl | by apply grows_afterWrite].
Qed.

Lemma shaped_step (env : Env) (ev : Event) (w : World) :
  grows wellShaped w (step env ev w).
Proof.
  destruct ev as [doc|this primary|this primary|filter|req|taskId]; simpl.
  - eapply grows_of_cases, postSave_cases.
  - rewrite findOneAndUpdate_eq.
    destruct (preFindOneAndUpdate _ _ _) as [[this'|e] w1]; [|apply grows_refl].
    destruct primary; [|apply grows_refl].
    eapply grows_of_cases, postFindOneAndUpdate_cases.
  - rewrite findOneAndDelete_eq.
    destruct (preFindOneAndDelete _ _ _) as [[this'|e] w1]; [|apply grows_refl].
    destruct primary; [|apply grows_refl].
    eapply grows_of_cases, postFindOneAndDelete_cases.
  - apply grows_refl.
  - unfold getAuditLogs, tryCatch, TaskHistory_countDocuments, TaskHistory_find,
      mbind, M_bind, mret, M_ret. cbv zeta.
    destruct (answerCount (reader env) _ _); simpl.
    + destruct (answerFind (reader env) _ _ _ _); simpl;
        (eapply grows_trans; [|by apply grows_noteIssued]); by apply grows_noteIssued.
    + by apply grows_noteIssued.
  - unfold getTaskAuditLogs, tryCatch, TaskHistory_find, mbind, M_bind, mret, M_ret.
    destruct (answerFind (reader env) _ _ _ _); simpl; by apply grows_noteIssued.
Qed.

(** X5. Over any sequence of operations, every record handed to the audit
    store, and every record stored, has the shape of its kind: model
    "Task"; for [delete] exactly the sentinel entry; for [create] and
    [update] entries naming audited fields in declaration order, none
    twice; for [create] every entry from [null] to a value other than
    [undefined]; for [update] at least one entry. *)
Theorem every_record_has_the_shape_of_its_kind
    (trace : list (Env * Event)) (w : World) :
  exists ops rs,
    issued (run trace w) = issued w ++ ops
    /\ task_histories (run trace w) = task_histories w ++ rs
    /\ Forall wellShaped (created ops)
    /\ Forall wellShaped rs.
Proof.
  assert (grows wellShaped w (run trace w)) as (ops & rs & Hi & Ht & _ & Hs & Hp).
  { revert w. induction trace as [|[env ev] rest IH]; intros w; simpl.
    - apply grows_refl.
    - eapply grows_trans; [apply shaped_step | apply IH]. }
  exists ops, rs. repeat split; try done.
  by eapply Forall_of_sublist.
Qed.

(** * Authentication, access control and the read side *)

Lemma splitSpaces_spaceFree (t : string) : spaceFree t = true -> splitSpaces t = [t].
Proof.
  induction t as [|c t IH]; simpl; [done|].
  intros H. apply andb_true_iff in H as (Hc & Ht).
  apply negb_true_iff in Hc. rewrite Hc. by rewrite IH.
Qed.

Lemma prefix_Bearer (header : string) :
  String.prefix "Bearer" header = true -> exists rest, header = "Bearer" +:+ rest.
Proof.
  intros H.
  do 6 (destruct header as [|? header]; [discriminate H|];
        cbn [String.prefix] in H;
        destruct (ascii_dec _ _) as [<-|]; [|discriminate H]).
  by exists header.
Qed.

(** X6. The token [authenticate] reads.  From a header "Bearer " followed
    by a token without spaces it reads that token; from no header, an empty
    header or a header that does not start with 'Bearer' (the match is
    case-sensitive) it reads none; and whenever it reads a token the header
    starts with 'Bearer'. *)
Theorem bearer_token_of_header (authorization : option string) (t token : string) :
  (spaceFree t = true -> bearerToken (Some ("Bearer " +:+ t)) = Some t)
  /\ bearerToken None = None
  /\ bearerToken (Some "") = None
  /\ bearerToken (Some ("bearer " +:+ t)) = None
  /\ (bearerToken authorization = Some token ->
      exists rest, authorization = Some ("Bearer" +:+ rest)).
Proof.
  split; [|split; [|split; [|split]]]; try reflexivity.
  - intros Ht. unfold bearerToken. simpl. by rewrite splitSpaces_spaceFree.
  - unfold bearerToken. destruct authorization as [header|]; [|done].
    destruct (String.prefix "Bearer" header) eqn:Hp.
    + intros _. apply prefix_Bearer in Hp as (rest & ->). by exists rest.
    + by rewrite andb_false_r.
Qed.

Lemma bearer_token_of_header_witness :
  bearerToken (Some "Bearer eyJhbGciOi.eyJpZCI6.c2ln") = Some "eyJhbGciOi.eyJpZCI6.c2ln"
  /\ exists rest, Some "Bearerx abc" = Some ("Bearer" +:+ rest).
Proof.
  split.
  - apply (proj1 (bearer_token_of_header None "eyJhbGciOi.eyJpZCI6.c2ln" "")).
    reflexivity.
  - apply (proj2 (proj2 (proj2 (proj2
             (bearer_token_of_header (Some "Bearerx abc") "" "abc"))))).
    reflexivity.
Defined.

(** A refusal of [authenticate] carries one of its two messages, with
    status 401. *)
Lemma authenticate_refusal_is_401
    (ident : Identity) (authorization : option string) (p : Passed) :
  authenticate ident authorization = NotAuthenticated p ->
  p = Refused "Not authorized to access this route" 401
  \/ p = Refused "Invalid token" 401.
Proof.
  unfold authenticate.
  destruct (bearerToken authorization) as [token|]; [|intros [= <-]; auto].
  destruct (String.eqb token ""); [intros [= <-]; auto|].
  destruct (verify ident token) as [id|e]; [|intros [= <-]; auto].
  destruct (findUser ident id) as [[user|]|e]; intros [= <-]; auto.
Qed.

(** X7. [authenticate] refuses with status 401 and nothing else: with
    'Not authorized to access this route' when it reads no token or an
    empty one, and with 'Invalid token' when the verification raises, when
    the lookup of the user raises and also when the token is good but its
    user no longer exists (the 404 'User not found' raised for that case is
    replaced by the inner catch).  With a token that verifies and whose
    user exists it lets the request through with that user, and it lets a
    request through in no other case. *)
Theorem authenticate_refuses_with_401_only
    (ident : Identity) (authorization : option string) :
  let outcome := authenticate ident authorization in
  let unauthorized :=
    NotAuthenticated (Refused "Not authorized to access this route" 401) in
  let invalid := NotAuthenticated (Refused "Invalid token" 401) in
  (bearerToken authorization = None \/ bearerToken authorization = Some "" ->
   outcome = unauthorized)
  /\ (forall token, bearerToken authorization = Some token -> token <> "" ->
      (forall e, verify ident token = Throw e -> outcome = invalid)
      /\ (forall id, verify ident token = Ok id ->
          (forall e, findUser ident id = Throw e -> outcome = invalid)
          /\ (findUser ident id = Ok None -> outcome = invalid)
          /\ (forall user, findUser ident id = Ok (Some user) ->
              outcome = Authenticated user)))
  /\ (forall p, outcome = NotAuthenticated p ->
      p = Refused "Not authorized to access this route" 401
      \/ p = Refused "Invalid token" 401)
  /\ (forall user, outcome = Authenticated user ->
      exists token id,
        bearerToken authorization = Some token /\ token <> ""
        /\ verify ident token = Ok id /\ findUser ident id = Ok (Some user)).
Proof.
  intros outcome unauthorized invalid. subst outcome unauthorized invalid.
  split; [|split; [|split]].
  - unfold authenticate. by intros [-> | ->].
  - intros token Ht Hne. apply String.eqb_neq in Hne.
    unfold authenticate. rewrite Ht, Hne. split.
    + by intros e ->.
    + intros id ->. split; [by intros e ->|]. split; [by intros ->|].
      by intros user ->.
  - intros p. apply authenticate_refusal_is_401.
  - unfold authenticate. intros user.
    destruct (bearerToken authorization) as [token|]; [|done].
    destruct (String.eqb token "") eqn:He; [done|].
    destruct (verify ident token) as [id|e] eqn:Hv; [|done].
    destruct (findUser ident id) as [[u|]|e] eqn:Hf; try done.
    intros [= ->]. exists token, id. repeat split; try done.
    by apply String.eqb_neq.
Qed.

Lemma authenticate_refuses_with_401_only_witness :
  let gone := {| verify := fun _ => Ok "64b000000000000000000001";
                 findUser := fun _ => Ok None |} in
  let forged := {| verify := fun _ => Throw {| message := "JsonWebTokenError" |};
                   findUser := fun _ => Ok (Some alice) |} in
  let good := {| verify := fun _ => Ok "64b000000000000000000001";
                 findUser := fun _ => Ok (Some alice) |} in
  authenticate gone (Some "Bearer abc")
  = NotAuthenticated (Refused "Invalid token" 401)
  /\ authenticate forged (Some "Bearer abc")
     = NotAuthenticated (Refused "Invalid token" 401)
  /\ authenticate good (Some "Bearer abc") = Authenticated alice
  /\ authenticate good (Some "Basic abc")
     = NotAuthenticated (Refused "Not authorized to access this route" 401).
Proof.
  intros gone forged good.
  assert ("abc" <> "") as Hne by discriminate.
  split; [|split; [|split]].
  - destruct (authenticate_refuses_with_401_only gone (Some "Bearer abc"))
      as (_ & H & _).
    destruct (H "abc" eq_refl Hne) as (_ & Hid).
    destruct (Hid "64b000000000000000000001" eq_refl) as (_ & Hgone & _).
    apply Hgone. reflexivity.
  - destruct (authenticate_refuses_with_401_only forged (Some "Bearer abc"))
      as (_ & H & _).
    destruct (H "abc" eq_refl Hne) as (Hthrow & _).
    apply (Hthrow {| message := "JsonWebTokenError" |}). reflexivity.
  - destruct (authenticate_refuses_with_401_only good (Some "Bearer abc"))
      as (_ & H & _).
    destruct (H "abc" eq_refl Hne) as (_ & Hid).
    destruct (Hid "64b000000000000000000001" eq_refl) as (_ & _ & Hok).
    apply Hok. reflexivity.
  - destruct (authenticate_refuses_with_401_only good (Some "Basic abc"))
      as (Hno & _).
    apply Hno. left. reflexivity.
Defined.



Lemma ceilDiv_bounds (a b : Z) :
  0 < b -> (ceilDiv a b - 1) * b < a <= ceilDiv a b * b.
Proof.
  intros Hb. unfold ceilDiv.
  pose proof (Z.div_mod (- a) b ltac:(lia)) as Hdm.
  pose proof (Z.mod_pos_bound (- a) b Hb) as Hr.
  nia.
Qed.

(** X9. For page, limit, offset and count within the safe integers: a
    successful answer of [getAuditLogs] has status 200, the count and the
    records the store answered, and a pagination whose page and limit are
    never 0.  The page is the parsed [page] parameter when that is a number
    other than 0, and 1 when the parameter is absent, not a number, or 0;
    the limit likewise, with 20.  The records were asked for at offset
    (page - 1) * limit with that limit.  With a positive limit, [pages] is
    the least number of pages of that size that hold [total] records. *)
Theorem audit_log_pagination
    (rd : Reader) (req : AuditLogsRequest) (w : World)
    (st : Z) (msg : string) (found : list AuditRecord) (p : Pagination) :
  fst (getAuditLogs rd req w) = Ok (Success st msg found (Some p)) ->
  safeInteger (page p) -> safeInteger (limit p) ->
  safeInteger ((page p - 1) * limit p) -> 0 <= total p < 2 ^ 53 ->
  st = 200
  /\ page p <> 0 /\ limit p <> 0
  /\ (forall n, rq_page req = Some n -> n <> 0 -> page p = n)
  /\ (rq_page req = None \/ rq_page req = Some 0 -> page p = 1)
  /\ (forall n, rq_limit req = Some n -> n <> 0 -> limit p = n)
  /\ (rq_limit req = None \/ rq_limit req = Some 0 -> limit p = 20)
  /\ answerCount rd (task_histories w) (selectionOf req) = Ok (total p)
  /\ answerFind rd (task_histories w) (selectionOf req)
       (Some ((page p - 1) * limit p)) (Some (limit p)) = Ok found
  /\ (0 < limit p -> (pages p - 1) * limit p < total p <= pages p * limit p).
Proof.
  unfold getAuditLogs, tryCatch, TaskHistory_countDocuments, TaskHistory_find,
    mbind, M_bind, mret, M_ret. cbv zeta. fold (selectionOf req).
  destruct (answerCount rd (task_histories w) (selectionOf req)) as [n|e] eqn:Hc;
    simpl; [|done].
  destruct (answerFind rd _ _ _ _) as [l|e] eqn:Hf; simpl; [|done].
  intros [= <- <- <- <-] _ _ _ _. simpl.
  assert (forall o d, d <> 0 ->
            orDefault o d <> 0
            /\ (forall m, o = Some m -> m <> 0 -> orDefault o d = m)
            /\ (o = None \/ o = Some 0 -> orDefault o d = d)) as Hd.
  { intros o d Hd0. split; [|split].
    - destruct o as [n0|]; simpl; [|done].
      destruct (n0 =? 0) eqn:Hz; [done|]. by apply Z.eqb_neq in Hz.
    - intros m -> Hm. simpl. apply Z.eqb_neq in Hm. by rewrite Hm.
    - by intros [-> | ->]. }
  destruct (Hd (rq_page req) 1 ltac:(done)) as (Hp1 & Hp2 & Hp3).
  destruct (Hd (rq_limit req) 20 ltac:(done)) as (Hl1 & Hl2 & Hl3).
  split; [done|]. split; [done|]. split; [done|]. split; [done|]. split; [done|].
  split; [done|]. split; [done|]. split; [done|]. split; [done|].
  intros Hpos. by apply ceilDiv_bounds.
Qed.

Lemma audit_log_pagination_witness :
  let rd := {| answerCount := fun _ _ => Ok 45; answerFind := fun _ _ _ _ => Ok [] |} in
  let req := {| rq_model := None; rq_taskId := Some ""; rq_userId := None;
                rq_changeType := None; rq_page := Some 3; rq_limit := Some 10 |} in
  fst (getAuditLogs rd req emptyWorld)
  = Ok (Success 200 "Audit logs retrieved successfully" []
          (Some {| page := 3; limit := 10; total := 45; pages := 5 |}))
  /\ issued (snd (getAuditLogs rd req emptyWorld))
     = [HCountDocuments (selectionOf req);
        HFind (selectionOf req) (Some 20) (Some 10)]
  /\ (5 - 1) * 10 < 45 <= 5 * 10.
Proof.
  intros rd req. split; [reflexivity|]. split; [reflexivity|].
  apply (audit_log_pagination rd req emptyWorld 200
           "Audit logs retrieved successfully" []
           {| page := 3; limit := 10; total := 45; pages := 5 |});
    try reflexivity; unfold safeInteger; simpl; lia.
Defined.

(** X10. The two retrievals never raise: an error of the store is handed to
    [next].  When the count of [getAuditLogs] raises, the records are not
    asked for: the count is the only operation issued.  When the records
    cannot be read, the answer is [next(error)] with that error. *)
Theorem retrieval_errors_go_to_next
    (rd : Reader) (req : AuditLogsRequest) (taskId : string) (w : World) :
  (exists reply, fst (getAuditLogs rd req w) = Ok reply)
  /\ (exists reply, fst (getTaskAuditLogs rd taskId w) = Ok reply)
  /\ (forall e, answerCount rd (task_histories w) (selectionOf req) = Throw e ->
      getAuditLogs rd req w
      = (Ok (NextError e), noteIssued (HCountDocuments (selectionOf req)) w))
  /\ (forall n e (skip lim : option Z),
      answerCount rd (task_histories w) (selectionOf req) = Ok n ->
      (forall s l, answerFind rd (task_histories w) (selectionOf req) s l = Throw e) ->
      fst (getAuditLogs rd req w) = Ok (NextError e))
  /\ (forall e,
      answerFind rd (task_histories w)
        {| q_model := None; q_model_id := Some taskId;
           q_created_by_id := None; q_change_type := None |} None None = Throw e ->
      fst (getTaskAuditLogs rd taskId w) = Ok (NextError e)).
Proof.
  unfold getAuditLogs, getTaskAuditLogs, tryCatch, TaskHistory_countDocuments,
    TaskHistory_find, mbind, M_bind, mret, M_ret. cbv zeta. fold (selectionOf req).
  split; [|split; [|split; [|split]]].
  - destruct (answerCount rd _ _); simpl; [|eauto].
    destruct (answerFind rd _ _ _ _); simpl; eauto.
  - destruct (answerFind rd _ _ _ _); simpl; eauto.
  - intros e ->. done.
  - intros n e _ _ -> Hf. simpl. by rewrite Hf.
  - intros e Hf. simpl. by rewrite Hf.
Qed.

Lemma retrieval_errors_go_to_next_witness :
  let e := {| message := "MongoNetworkError" |} in
  let rd := {| answerCount := fun _ _ => Throw e; answerFind := fun _ _ _ _ => Throw e |} in
  let req := {| rq_model := None; rq_taskId := None; rq_userId := None;
                rq_changeType := None; rq_page := None; rq_limit := None |} in
  issued (snd (getAuditLogs rd req emptyWorld)) = [HCountDocuments (selectionOf req)]
  /\ fst (getTaskAuditLogs rd "64b0000000000000000000aa" emptyWorld) = Ok (NextError e).
Proof.
  intros e rd req.
  destruct (retrieval_errors_go_to_next rd req "64b0000000000000000000aa" emptyWorld)
    as (_ & _ & H3 & _ & H5).
  split.
  - rewrite (H3 e eq_refl). reflexivity.
  - apply H5. reflexivity.
Defined.

(** X11. What the error handler answers.  The status is never 0 and the
    message never empty.  The stack is part of the answer exactly when the
    environment is 'local'.  An error that is none of the recognised kinds
    keeps its own status code and message, with 500 and 'Server Error' for
    a missing or zero code and an empty message.  A JWT error is answered
    with 401 and a validation error with 400 whatever code the error
    carries; a duplicate key (code 11000) with 400 unless the error is one
    of those. *)
Theorem error_handler_answer (env : string) (err : Err.t) :
  let reply := errorHandler env err in
  let recognised :=
    In (Err.name err) ["CastError"; "ValidationError"; "JsonWebTokenError";
                       "TokenExpiredError"] in
  status reply <> 0
  /\ text reply <> ""
  /\ (details reply = if String.eqb env "local" then Some (Err.stack err) else None)
  /\ (~ recognised -> Err.code err <> Some 11000 ->
      status reply = default 500 (orStatus (Err.statusCode err) (Some 500))
      /\ text reply = if String.eqb (Err.message err) "" then "Server Error"
                      else Err.message err)
  /\ (Err.name err = "JsonWebTokenError" \/ Err.name err = "TokenExpiredError" ->
      status reply = 401)
  /\ (Err.name err = "ValidationError" -> status reply = 400)
  /\ (Err.code err = Some 11000 ->
      Err.name err <> "ValidationError" -> Err.name err <> "JsonWebTokenError" ->
      Err.name err <> "TokenExpiredError" ->
      status reply = 400 /\ text reply = "Duplicate field value entered").
Proof.
  intros reply recognised. subst reply recognised. unfold errorHandler. cbv zeta.
  destruct (String.eqb_spec (Err.name err) "CastError") as [Hn1|Hn1];
  destruct (String.eqb_spec (Err.name err) "ValidationError") as [Hn2|Hn2];
  destruct (String.eqb_spec (Err.name err) "JsonWebTokenError") as [Hn3|Hn3];
  destruct (String.eqb_spec (Err.name err) "TokenExpiredError") as [Hn4|Hn4];
  try congruence;
  destruct (bool_decide (Err.code err = Some 11000)) eqn:Hcode;
  (try apply bool_decide_eq_true in Hcode);
  (try apply bool_decide_eq_false in Hcode);
  cbn [fst snd status text details orStatus default Z.eqb];
  (split; [|split; [|split; [|split; [|split; [|split]]]]]);
  try done; try (simpl; intuition congruence).
  all: try (destruct (Err.statusCode err) as [n|]; simpl;
            [destruct (n =? 0) eqn:Hz; simpl; [done|by apply Z.eqb_neq in Hz] | done]).
  all: try (destruct (String.eqb_spec (Err.message err) ""); done).
  all: try (destruct (String.eqb_spec (String.concat ", " (Err.errors err)) ""); done).
  all: try intros _ _; destruct (Err.statusCode err) as [n|]; simpl; try done;
    destruct (n =? 0) eqn:Hz; simpl; rewrite ?Hz; simpl; try done;
    by apply Z.eqb_neq in Hz.
Qed.

Lemma error_handler_answer_witness :
  let notFound := {| Err.name := "Error"; Err.code := None; Err.statusCode := Some 404;
                     Err.message := "Task not found"; Err.errors := [];
                     Err.stack := "Error: Task not found" |} in
  let expired := {| Err.name := "TokenExpiredError"; Err.code := Some 11000;
                    Err.statusCode := None; Err.message := "jwt expired";
                    Err.errors := []; Err.stack := "" |} in
  (status (errorHandler "production" notFound) = 404
   /\ text (errorHandler "production" notFound) = "Task not found")
  /\ status (errorHandler "production" expired) = 401.
Proof.
  intros notFound expired.
  destruct (error_handler_answer "production" notFound) as (_ & _ & _ & H4 & _).
  destruct (error_handler_answer "production" expired) as (_ & _ & _ & _ & H5 & _).
  split.
  - apply H4; [|discriminate]. simpl. intuition discriminate.
  - apply H5. right. reflexivity.
Defined.

(** * The task controller *)

Ltac ctl :=
  unfold handle, theUser, throw, ask, liftM, taskOp, logger_info,
    mbind, H_bind, mret, H_ret; cbn -[includes toString updateDataOf].

Ltac cases :=
  repeat (case_match; cbn -[includes toString updateDataOf] in *; simplify_eq).

Ltac ops :=
  cbn -[includes toString updateDataOf]; rewrite <- ?app_assoc;
  cbn -[includes toString updateDataOf]; rewrite ?drop_app_length, ?drop_all.

Ltac look :=
  unfold prop; rewrite ?lookup_insert, ?lookup_singleton, ?lookup_empty;
  repeat (case_decide; simplify_eq); cbn -[includes toString updateDataOf].

Ltac among H :=
  repeat (destruct H as [H|H]; [simplify_eq|]); try destruct H.

Lemma strictNe_undefined (v : JsValue) :
  strictNe v JUndefined = true <-> v <> JUndefined.
Proof. by destruct v. Qed.

Lemma copyDefined_lookup (body : gmap string JsValue) (k : string)
    (m : gmap string JsValue) (k' : string) :
  copyDefined body k m !! k'
  = if decide (k = k')
    then (if strictNe (prop body k) JUndefined then Some (prop body k) else m !! k')
    else m !! k'.
Proof.
  unfold copyDefined. destruct (strictNe _ _); [rewrite lookup_insert|]; by case_decide.
Qed.

Lemma updateDataOf_lookup (body : gmap string JsValue) (isAdmin : bool)
    (k : string) (v : JsValue) :
  updateDataOf body isAdmin !! k = Some v
  <-> v = prop body k /\ v <> JUndefined
      /\ (k = "title" \/ k = "description" \/ k = "completed"
          \/ k = "owner" /\ isAdmin = true).
Proof.
  unfold updateDataOf. cbv zeta.
  assert (forall f, (if strictNe (prop body f) JUndefined then Some (prop body f)
                     else None) = Some v
                    <-> v = prop body f /\ v <> JUndefined) as Hf.
  { intros f. destruct (strictNe (prop body f) JUndefined) eqn:E.
    - apply strictNe_undefined in E. split; [by intros [= <-]|by intros [-> _]].
    - split; [done|]. intros [-> Hv]. apply strictNe_undefined in Hv.
      by rewrite Hv in E. }
  destruct (strictNe (prop body "owner") JUndefined && isAdmin) eqn:Ho.
  - apply andb_true_iff in Ho as [Ho ->].
    rewrite lookup_insert, !copyDefined_lookup, lookup_empty.
    repeat case_decide; subst; try done.
    + apply strictNe_undefined in Ho. split; [|by intros [-> _]].
      intros [= <-]. split; [done|]. split; [done|]. right. right. right. done.
    + rewrite Hf. intuition.
    + rewrite Hf. intuition.
    + rewrite Hf. intuition.
    + split; [done|]. intros (_ & _ & [?|[?|[?|[? _]]]]); done.
  - rewrite !copyDefined_lookup, lookup_empty.
    repeat case_decide; subst; try done.
    + rewrite Hf. intuition.
    + rewrite Hf. intuition.
    + rewrite Hf. intuition.
    + split; [done|]. intros (-> & Hv & [?|[?|[?|[-> ->]]]]); try done.
      apply strictNe_undefined in Hv. rewrite Hv in Ho. done.
Qed.

Lemma actor_of_context (user : User.t) :
  Forall validRole (User.roles user) ->
  createdBy (Some (auditUser user)) = actorOf user.
Proof. intros Hv. unfold createdBy, actorOf. by rewrite auditUser_role. Qed.

Lemma saved_writes (be : Backend) (doc : Document) (w : World) :
  writesAtMostOne be w (snd (saved be doc w))
    (fun r => created_by r = createdBy (locals doc ≫= Locals.auditUser)).
Proof.
  rewrite saved_eq. simpl.
  eapply writesAtMostOne_weaken; [|apply postSave_writes].
  by intros r (_ & Hc & _).
Qed.

Lemma findOneAndUpdate_writes (tasks : TaskModel) (be : Backend) (this : Query)
    (primary : Result (option Document)) (w : World) :
  writesAtMostOne be w (snd (findOneAndUpdate tasks be this primary w))
    (fun r => created_by r = createdBy (getOptions this ≫= Options.auditUser)
              /\ change_type r = update /\ logs r <> []).
Proof.
  rewrite findOneAndUpdate_eq, preFindOneAndUpdate_eq.
  destruct (tasks (getQuery this)) as [found|e]; [|by left].
  destruct primary as [doc|e]; [|by left].
  simpl. eapply writesAtMostOne_weaken; [|apply postFindOneAndUpdate_writes].
  by intros r.
Qed.

Lemma findOneAndDelete_writes (tasks : TaskModel) (be : Backend) (this : Query)
    (primary : Result (option Document)) (w : World) :
  writesAtMostOne be w (snd (findOneAndDelete tasks be this primary w))
    (fun r => created_by r = createdBy (getOptions this ≫= Options.auditUser)
              /\ change_type r = delete /\ logs r = deleteLogs).
Proof.
  rewrite findOneAndDelete_eq, preFindOneAndDelete_eq.
  destruct (tasks (getQuery this)) as [found|e]; [|by left].
  destruct primary as [doc|e]; [|by left].
  simpl. eapply writesAtMostOne_weaken; [|apply postFindOneAndDelete_writes].
  by intros r.
Qed.

(** X12. createTask checks the title before the owner and refuses before
    touching anything: a request without a truthy title is passed on as
    AppError 'Task title is required' 400, and a request with a title and
    an owner from a user who is not an administrator as AppError 'Only
    admins can assign tasks to other users' 403; in both cases no operation
    is issued on the Task model, nothing is written to the audit collection
    and nothing is logged. *)
Theorem createTask_refusals
    (db : TaskDb) (req : Req.t) (user : User.t) (s : Server) :
  Req.user req = Some user ->
  (truthy (prop (Req.body req) "title") = false ->
   createTask db req s = (Next (AppError "Task title is required" 400), s))
  /\ (truthy (prop (Req.body req) "title") = true ->
      truthy (prop (Req.body req) "owner") = true ->
      includes (User.roles user) "admin" = false ->
      createTask db req s
      = (Next (AppError "Only admins can assign tasks to other users" 403), s)).
Proof.
  intros Hu. unfold createTask. ctl. rewrite Hu. ctl. split.
  - intros ->. reflexivity.
  - intros -> -> ->. reflexivity.
Qed.

Lemma createTask_refusals_witness :
  createTask sampleDb (request bob {[ "description" := JStr "no title" ]}) idle
  = (Next (AppError "Task title is required" 400), idle)
  /\ createTask sampleDb
       (request bob {[ "title" := JStr "Buy milk";
                       "owner" := JStr "64b000000000000000000001" ]}) idle
     = (Next (AppError "Only admins can assign tasks to other users" 403), idle).
Proof.
  split.
  - apply (createTask_refusals sampleDb
             (request bob {[ "description" := JStr "no title" ]}) bob idle);
      reflexivity.
  - apply (createTask_refusals sampleDb
             (request bob {[ "title" := JStr "Buy milk";
                             "owner" := JStr "64b000000000000000000001" ]}) bob idle);
      reflexivity.
Defined.

(** X13. Whenever createTask builds a task, the request had a user and a
    truthy title, and the data handed to [new Task] has exactly the keys
    title, description and owner: the title of the body, the description of
    the body or the empty string when that is falsy, and as owner the
    requesting user's [_id], except that for an administrator a truthy
    owner of the body is taken instead. *)
Theorem createTask_task_data
    (db : TaskDb) (req : Req.t) (s : Server) (taskData : gmap string JsValue) :
  In (TNew taskData) (opsOf (createTask db req) s) ->
  exists user,
    Req.user req = Some user
    /\ truthy (prop (Req.body req) "title") = true
    /\ dom taskData = ({[ "title"; "description"; "owner" ]} : gset string)
    /\ prop taskData "title" = prop (Req.body req) "title"
    /\ prop taskData "description" = jsOr (prop (Req.body req) "description") (JStr "")
    /\ prop taskData "owner"
       = (if includes (User.roles user) "admin"
          then jsOr (prop (Req.body req) "owner") (User._id user)
          else User._id user).
Proof.
  unfold opsOf, createTask. ctl.
  destruct (Req.user req) as [user|]; ctl.
  2:{ rewrite drop_all. intros []. }
  intros Hin. exists user. split; [done|].
  destruct (truthy (prop (Req.body req) "title")) eqn:Ht;
    cbn -[includes toString] in Hin.
  2:{ rewrite drop_all in Hin. destruct Hin. }
  split; [done|].
  unfold jsOr at 2.
  destruct (truthy (prop (Req.body req) "owner")) eqn:Ho,
    (includes (User.roles user) "admin") eqn:Ha; cbn -[includes toString] in Hin.
  2:{ rewrite drop_all in Hin. destruct Hin. }
  all: cases; revert Hin; ops; intros Hin.
  all: among Hin.
  all: split; [rewrite !dom_insert_L, dom_singleton_L; set_solver|].
  all: split; [by look|split; by look].
Qed.

Lemma createTask_task_data_witness :
  let taskData : gmap string JsValue :=
    {[ "title" := JStr "Buy milk"; "description" := JStr "";
       "owner" := User._id bob ]} in
  In (TNew taskData)
     (opsOf (createTask sampleDb (request bob {[ "title" := JStr "Buy milk" ]})) idle)
  /\ exists user,
       Req.user (request bob {[ "title" := JStr "Buy milk" ]}) = Some user
       /\ truthy (prop (Req.body (request bob {[ "title" := JStr "Buy milk" ]}))
                    "title") = true
       /\ dom taskData = ({[ "title"; "description"; "owner" ]} : gset string)
       /\ prop taskData "title"
          = prop (Req.body (request bob {[ "title" := JStr "Buy milk" ]})) "title"
       /\ prop taskData "description"
          = jsOr (prop (Req.body (request bob {[ "title" := JStr "Buy milk" ]}))
                    "description") (JStr "")
       /\ prop taskData "owner"
          = (if includes (User.roles user) "admin"
             then jsOr (prop (Req.body (request bob {[ "title" := JStr "Buy milk" ]}))
                          "owner") (User._id user)
             else User._id user).
Proof.
  intros taskData.
  assert (In (TNew taskData)
            (opsOf (createTask sampleDb
                      (request bob {[ "title" := JStr "Buy milk" ]})) idle)) as Hin
    by (left; vm_compute; reflexivity).
  split; [exact Hin|].
  exact (createTask_task_data sampleDb (request bob {[ "title" := JStr "Buy milk" ]})
           idle taskData Hin).
Defined.

Lemma ownerOrAdmin_of_check (user : User.t) (owner : JsValue) (o u : string) :
  toString owner = Ok o -> toString (User._id user) = Ok u ->
  negb (String.eqb o u) && negb (includes (User.roles user) "admin") = false ->
  ownerOrAdmin user owner.
Proof.
  intros Ho Hu Hc. unfold ownerOrAdmin.
  destruct (includes (User.roles user) "admin"); [by left|].
  right. exists o. split; [done|].
  rewrite andb_true_r in Hc. apply negb_false_iff, String.eqb_eq in Hc. by subst.
Qed.

(** X14. updateTask issues its [findByIdAndUpdate] only for a task that
    exists and a user who is its owner or an administrator, on the
    identifier of the request and with the requester's actor context in the
    options.  The update holds exactly the fields title, description and
    completed that the body defines, each with the body's value, and the
    owner of the body only for an administrator; for any other user the
    body has no truthy owner. *)
Theorem updateTask_mutates_only_when_authorized
    (db : TaskDb) (req : Req.t) (s : Server) (id : string)
    (updateData : gmap string JsValue) (options : Options.t) :
  In (TFindByIdAndUpdate id updateData options) (opsOf (updateTask db req) s) ->
  exists task user,
    db_findById db (Req.id req) = Ok (Some task)
    /\ Req.user req = Some user
    /\ ownerOrAdmin user (field task "owner")
    /\ id = Req.id req
    /\ options = updateTask_options user
    /\ (forall k v,
          updateData !! k = Some v
          <-> v = prop (Req.body req) k /\ v <> JUndefined
              /\ (k = "title" \/ k = "description" \/ k = "completed"
                  \/ k = "owner" /\ includes (User.roles user) "admin" = true))
    /\ (includes (User.roles user) "admin" = false ->
        truthy (prop (Req.body req) "owner") = false).
Proof.
  unfold opsOf, updateTask. ctl. intros Hin.
  cases; revert Hin; ops; intros Hin; among Hin.
  all: eexists _, _; split; [done|]; split; [done|].
  all: split; [by eapply ownerOrAdmin_of_check|].
  all: split; [done|]; split; [done|].
  all: split; [intros k v; apply updateDataOf_lookup|].
  all: intros Ha; rewrite Ha in *; by destruct (truthy _).
Qed.

Lemma updateTask_mutates_only_when_authorized_witness :
  In (TFindByIdAndUpdate "64b0000000000000000000aa"
        {[ "completed" := JBool true ]} (updateTask_options ann))
     (opsOf (updateTask sampleDb
               (request ann {[ "completed" := JBool true; "rank" := JNum 1 ]})) idle)
  /\ exists task user,
       db_findById sampleDb "64b0000000000000000000aa" = Ok (Some task)
       /\ Some ann = Some user
       /\ ownerOrAdmin user (field task "owner").
Proof.
  assert (In (TFindByIdAndUpdate "64b0000000000000000000aa"
                {[ "completed" := JBool true ]} (updateTask_options ann))
             (opsOf (updateTask sampleDb
                       (request ann {[ "completed" := JBool true; "rank" := JNum 1 ]}))
                idle)) as Hin
    by (right; left; vm_compute; reflexivity).
  split; [exact Hin|].
  destruct (updateTask_mutates_only_when_authorized sampleDb
              (request ann {[ "completed" := JBool true; "rank" := JNum 1 ]}) idle
              _ _ _ Hin) as (task & user & Ht & Hu & Ho & _).
  exists task, user. split; [exact Ht|]. split; [exact Hu|exact Ho].
Defined.

(** X15. deleteTask issues its [findByIdAndDelete] only for a task that
    exists and a user who is its owner or an administrator, on the
    identifier of the request and with the requester's actor context in the
    options. *)
Theorem deleteTask_mutates_only_when_authorized
    (db : TaskDb) (req : Req.t) (s : Server) (id : string) (options : Options.t) :
  In (TFindByIdAndDelete id options) (opsOf (deleteTask db req) s) ->
  exists task user,
    db_findById db (Req.id req) = Ok (Some task)
    /\ Req.user req = Some user
    /\ ownerOrAdmin user (field task "owner")
    /\ id = Req.id req
    /\ options = deleteTask_options user.
Proof.
  unfold opsOf, deleteTask. ctl. intros Hin.
  cases; revert Hin; ops; intros Hin; among Hin.
  all: eexists _, _; split; [done|]; split; [done|].
  all: split; [by eapply ownerOrAdmin_of_check|done].
Qed.

Lemma deleteTask_mutates_only_when_authorized_witness :
  In (TFindByIdAndDelete "64b0000000000000000000aa" (deleteTask_options alice))
     (opsOf (deleteTask sampleDb (request alice ∅)) idle)
  /\ exists task user,
       db_findById sampleDb "64b0000000000000000000aa" = Ok (Some task)
       /\ Some alice = Some user
       /\ ownerOrAdmin user (field task "owner").
Proof.
  assert (In (TFindByIdAndDelete "64b0000000000000000000aa" (deleteTask_options alice))
             (opsOf (deleteTask sampleDb (request alice ∅)) idle)) as Hin
    by (right; left; vm_compute; reflexivity).
  split; [exact Hin|].
  destruct (deleteTask_mutates_only_when_authorized sampleDb (request alice ∅) idle
              _ _ Hin) as (task & user & Ht & Hu & Ho & _).
  exists task, user. split; [exact Ht|]. split; [exact Hu|exact Ho].
Defined.

(** X16. When updateTask or deleteTask ends with an AppError, the status is
    404 or 403 and the request has done nothing but look the task up: no
    update or delete was issued, the audit side is as it was and nothing
    was logged. *)
Theorem refused_update_or_delete_changes_nothing
    (db : TaskDb) (req : Req.t) (s : Server) (reason : string) (code : Z) :
  let lookedUp :=
    {| audit := audit s;
       taskOps := taskOps s ++ [TFindById (Req.id req)];
       infos := infos s |} in
  (fst (updateTask db req s) = Next (AppError reason code) ->
   snd (updateTask db req s) = lookedUp /\ (code = 404 \/ code = 403))
  /\ (fst (deleteTask db req s) = Next (AppError reason code) ->
      snd (deleteTask db req s) = lookedUp /\ (code = 404 \/ code = 403)).
Proof.
  split.
  - unfold updateTask. ctl. intros Hr. cases; auto.
  - unfold deleteTask. ctl. intros Hr. cases; auto.
Qed.

Lemma refused_update_or_delete_changes_nothing_witness :
  let lookedUp :=
    {| audit := emptyWorld;
       taskOps := [TFindById "64b0000000000000000000aa"];
       infos := [] |} in
  (snd (updateTask sampleDb (request bob {[ "completed" := JBool true ]}) idle)
   = lookedUp /\ (403 = 404 \/ 403 = 403))
  /\ (snd (deleteTask sampleDb (request bob ∅) idle) = lookedUp
      /\ (403 = 404 \/ 403 = 403)).
Proof.
  intros lookedUp. split.
  - apply (proj1 (refused_update_or_delete_changes_nothing sampleDb
             (request bob {[ "completed" := JBool true ]}) idle
             "Not authorized to update this task" 403)).
    vm_compute. reflexivity.
  - apply (proj2 (refused_update_or_delete_changes_nothing sampleDb
             (request bob ∅) idle "Not authorized to delete this task" 403)).
    vm_compute. reflexivity.
Defined.

(** X17. For a user who is not an administrator getTasks issues one find,
    filtered by the user's own [_id] as owner, whatever the request's
    [user] query parameter says; it answers 200 with what the find returns,
    passes an error of the find on, and leaves the audit side as it was. *)
Theorem getTasks_of_a_regular_user_are_their_own
    (db : TaskDb) (req : Req.t) (user : User.t) (s : Server) :
  Req.user req = Some user ->
  includes (User.roles user) "admin" = false ->
  let own : gmap string JsValue := {[ "owner" := User._id user ]} in
  opsOf (getTasks db req) s = [TFind own]
  /\ fst (getTasks db req s)
     = match db_find db own with
       | Ok tasks => Responded 200 "Tasks retrieved successfully" (TasksData tasks)
       | Throw e => Next (Raised e)
       end
  /\ audit (snd (getTasks db req s)) = audit s.
Proof.
  intros Hu Ha own. unfold opsOf, getTasks. ctl. rewrite Hu. ctl. rewrite Ha. ctl.
  fold own. destruct (db_find db own); ops; done.
Qed.

Lemma getTasks_of_a_regular_user_are_their_own_witness :
  opsOf (getTasks sampleDb
           {| Req.user := Some bob; Req.id := ""; Req.body := ∅;
              Req.queryUser := Some "64b000000000000000000001" |}) idle
  = [TFind {[ "owner" := User._id bob ]}].
Proof.
  apply (getTasks_of_a_regular_user_are_their_own sampleDb
           {| Req.user := Some bob; Req.id := ""; Req.body := ∅;
              Req.queryUser := Some "64b000000000000000000001" |} bob idle);
    reflexivity.
Defined.

(** X18. getTask answers with a task only when the task exists, its
    populated owner is present, and the user is that owner or an
    administrator; the answer is then 200 with that task.  In every case
    the request issues the one lookup and leaves the audit side as it
    was. *)
Theorem getTask_answers_owner_or_admin
    (db : TaskDb) (req : Req.t) (s : Server) :
  (forall status msg data,
     fst (getTask db req s) = Responded status msg data ->
     exists task owner user,
       db_findByIdPopulated db (Req.id req) = Ok (Some (task, Some owner))
       /\ Req.user req = Some user
       /\ ownerOrAdmin user owner
       /\ status = 200 /\ data = TaskData task)
  /\ opsOf (getTask db req) s = [TFindByIdPopulated (Req.id req)]
  /\ audit (snd (getTask db req s)) = audit s.
Proof.
  unfold opsOf, getTask. ctl. split.
  - intros status msg data Hr. cases.
    eexists _, _, _. split; [done|]. split; [done|].
    split; [by eapply ownerOrAdmin_of_check|done].
  - cases; ops; done.
Qed.

Lemma getTask_answers_owner_or_admin_witness :
  fst (getTask sampleDb (request ann ∅) idle)
  = Responded 200 "Task retrieved successfully" (TaskData milk)
  /\ exists task owner user,
       db_findByIdPopulated sampleDb "64b0000000000000000000aa"
       = Ok (Some (task, Some owner))
       /\ Some ann = Some user
       /\ ownerOrAdmin user owner
       /\ 200 = 200 /\ TaskData milk = TaskData task.
Proof.
  assert (fst (getTask sampleDb (request ann ∅) idle)
          = Responded 200 "Task retrieved successfully" (TaskData milk)) as Hr
    by (vm_compute; reflexivity).
  split; [exact Hr|].
  exact (proj1 (getTask_answers_owner_or_admin sampleDb (request ann ∅) idle)
           200 "Task retrieved successfully" (TaskData milk) Hr).
Defined.

Ltac audit_of H :=
  apply (f_equal snd) in H; cbn [snd] in H; rewrite <- H.

(** X19. Controller and hooks together: for a user whose roles are among
    'user' and 'admin', a createTask, updateTask or deleteTask request
    hands at most one record to the audit store, and that record names the
    requester: [created_by] has the user's [_id], email and first role.
    The record of an updateTask is of kind [update] with at least one
    entry, that of a deleteTask of kind [delete] with the sentinel
    entry. *)
Theorem task_requests_record_the_requester
    (db : TaskDb) (req : Req.t) (user : User.t) (s : Server) :
  Req.user req = Some user ->
  Forall validRole (User.roles user) ->
  writesAtMostOne (db_audit db) (audit s) (audit (snd (createTask db req s)))
    (fun r => created_by r = actorOf user)
  /\ writesAtMostOne (db_audit db) (audit s) (audit (snd (updateTask db req s)))
       (fun r => created_by r = actorOf user
                 /\ change_type r = update /\ logs r <> [])
  /\ writesAtMostOne (db_audit db) (audit s) (audit (snd (deleteTask db req s)))
       (fun r => created_by r = actorOf user
                 /\ change_type r = delete /\ logs r = deleteLogs).
Proof.
  intros Hu Hv. pose proof (actor_of_context user Hv) as Ha.
  split; [|split].
  - unfold createTask. ctl. rewrite Hu. ctl. cases; try by left.
    all: match goal with H : saved _ _ _ = _ |- _ => audit_of H end.
    all: eapply writesAtMostOne_weaken; [|apply saved_writes].
    all: intros r Hc; by rewrite Hc.
  - unfold updateTask. ctl. rewrite Hu. cases; try by left.
    all: match goal with H : findOneAndUpdate _ _ _ _ _ = _ |- _ => audit_of H end.
    all: eapply writesAtMostOne_weaken; [|apply findOneAndUpdate_writes].
    all: intros r (Hc & Hk & Hl); by rewrite Hc.
  - unfold deleteTask. ctl. rewrite Hu. cases; try by left.
    all: match goal with H : findOneAndDelete _ _ _ _ _ = _ |- _ => audit_of H end.
    all: eapply writesAtMostOne_weaken; [|apply findOneAndDelete_writes].
    all: intros r (Hc & Hk & Hl); by rewrite Hc.
Qed.

Lemma task_requests_record_the_requester_witness :
  writesAtMostOne (db_audit sampleDb) (audit idle)
    (audit (snd (updateTask sampleDb
                   (request ann {[ "completed" := JBool true ]}) idle)))
    (fun r => created_by r = actorOf ann
              /\ change_type r = update /\ logs r <> [])
  /\ actorOf ann
     = Some {| CreatedBy.id := JObjectId 3 "64b000000000000000000001";
               CreatedBy.name := JStr "ann@example.com";
               CreatedBy.role := JStr "user" |}
  /\ length (task_histories
               (audit (snd (updateTask sampleDb
                              (request ann {[ "completed" := JBool true ]}) idle))))
     = 1%nat.
Proof.
  split; [|split; [reflexivity|vm_compute; reflexivity]].
  assert (Forall validRole (User.roles ann)) as Hv
    by (constructor; [left; reflexivity|constructor]).
  exact (proj1 (proj2 (task_requests_record_the_requester sampleDb
                         (request ann {[ "completed" := JBool true ]}) ann idle
                         eq_refl Hv))).
Defined.

(** ** The actor recorded for a mutation through the controller *)






(** * The user controller *)

Ltac usr :=
  unfold handled, requester, raise, await, userOp, logger_info_user,
    mbind, U_bind, mret, U_ret; cbn -[includesValue toString roleNames List.filter].

Ltac ucases :=
  repeat (case_match;
          cbn -[includesValue toString roleNames List.filter] in *; simplify_eq).

Ltac uops :=
  cbn -[includesValue toString roleNames List.filter]; rewrite <- ?app_assoc;
  cbn -[includesValue toString roleNames List.filter];
  rewrite ?drop_app_length, ?drop_all.

Lemma valid_role_value (v : JsValue) :
  includesValue [JStr "user"; JStr "admin"] v = true ->
  exists r, v = JStr r /\ validRole r.
Proof.
  unfold includesValue. cbn [existsb]. rewrite orb_false_r. intros H.
  destruct v as [| |b|n|r|i h]; cbn [strictEq orb] in H; try done.
  exists r. split; [done|].
  apply orb_true_iff in H as [H|H]; apply String.eqb_eq in H; [by left|by right].
Qed.

Lemma valid_roles (roles : list JsValue) :
  List.filter (fun role => negb (includesValue [JStr "user"; JStr "admin"] role)) roles
  = [] ->
  map JStr (roleNames roles) = roles /\ Forall validRole (roleNames roles).
Proof.
  induction roles as [|v rest IH]; [done|].
  cbn [List.filter].
  destruct (includesValue [JStr "user"; JStr "admin"] v) eqn:Hv; [|done].
  cbn [negb]. intros Hrest. destruct (IH Hrest) as [Hm Hf].
  apply valid_role_value in Hv as (r & -> & Hr).
  unfold roleNames in *. cbn [omap list_omap]. simpl. split.
  - by rewrite Hm.
  - by constructor.
Qed.

Lemma invalid_role_is_found (roles : list JsValue) (v : JsValue) :
  In v roles -> v <> JStr "user" -> v <> JStr "admin" ->
  List.filter (fun role => negb (includesValue [JStr "user"; JStr "admin"] role)) roles
  <> [].
Proof.
  intros Hin Hu Ha Hf.
  assert (In v []) as []. rewrite <- Hf. apply filter_In. split; [done|].
  destruct (includesValue _ v) eqn:Hv; [|done].
  apply valid_role_value in Hv as (r & -> & [-> | ->]); done.
Qed.

Lemma includes_admin (roles : list JsValue) :
  includesValue roles (JStr "admin") = true -> In "admin" (roleNames roles).
Proof.
  unfold includesValue, roleNames. induction roles as [|v rest IH]; [done|].
  cbn [existsb]. intros H. apply orb_true_iff in H as [H|H].
  - destruct v as [| |b|n|r|i h]; cbn [strictEq] in H; try done.
    apply String.eqb_eq in H as <-. cbn [omap list_omap]. by left.
  - specialize (IH H). destruct v; cbn [omap list_omap]; auto.
    by right.
Qed.

(** X20. changeUserRole saves a user only with roles that are all 'user' or
    'admin', exactly those of the request, on the user that the identifier
    of the request names, [_id] and email untouched; and when that user is
    the requester, 'admin' is among the saved roles: nobody removes their
    own admin role. *)
Theorem changeUserRole_saves_valid_roles_and_keeps_own_admin
    (db : UserDb) (req : UserReq.t) (s : Accounts) (user : User.t) :
  In (USave user) (userOpsOf (changeUserRole db req) s) ->
  exists roles target me,
    UserReq.roles req = Some roles
    /\ ud_findById db (UserReq.id req) = Ok (Some target)
    /\ UserReq.user req = Some me
    /\ User._id user = User._id target
    /\ User.email user = User.email target
    /\ map JStr (User.roles user) = roles
    /\ Forall validRole (User.roles user)
    /\ (toString (User._id target) = toString (User._id me) ->
        In "admin" (User.roles user)).
Proof.
  unfold userOpsOf, changeUserRole. usr. intros Hin.
  ucases; revert Hin; uops; intros Hin; among Hin.
  all: match goal with H : length _ = 0%nat |- _ =>
         apply nil_length_inv, valid_roles in H as [Hm Hf] end.
  all: eexists _, _, _; split; [done|]; split; [done|]; split; [done|].
  all: split; [done|]; split; [done|]; split; [done|]; split; [done|].
  all: intros He; apply includes_admin.
  all: match goal with
       | H1 : toString _ = Ok ?a, H2 : toString _ = Ok ?b |- _ =>
           rewrite H1, H2 in He; injection He as ->
       end.
  all: match goal with H : _ && _ = false |- _ =>
         rewrite String.eqb_refl in H; simpl in H; by apply negb_false_iff in H end.
Qed.

Lemma changeUserRole_saves_valid_roles_and_keeps_own_admin_witness :
  let user := {| User._id := User._id bob; User.email := User.email bob;
                 User.roles := ["user"; "admin"] |} in
  In (USave user)
     (userOpsOf (changeUserRole usersDb
                   {| UserReq.user := Some alice; UserReq.id := "64b000000000000000000002";
                      UserReq.roles := Some [JStr "user"; JStr "admin"] |})
        noAccounts)
  /\ exists roles target me,
       Some [JStr "user"; JStr "admin"] = Some roles
       /\ ud_findById usersDb "64b000000000000000000002" = Ok (Some target)
       /\ Some alice = Some me
       /\ Forall validRole (User.roles user).
Proof.
  intros user.
  assert (In (USave user)
            (userOpsOf (changeUserRole usersDb
                          {| UserReq.user := Some alice;
                             UserReq.id := "64b000000000000000000002";
                             UserReq.roles := Some [JStr "user"; JStr "admin"] |})
               noAccounts)) as Hin
    by (right; left; vm_compute; reflexivity).
  split; [exact Hin|].
  destruct (changeUserRole_saves_valid_roles_and_keeps_own_admin usersDb _ noAccounts
              user Hin) as (roles & target & me & Hr & Ht & Hu & _ & _ & _ & Hf & _).
  exists roles, target, me. split; [exact Hr|]. split; [exact Ht|].
  split; [exact Hu|exact Hf].
Defined.

(** X21. changeUserRole validates before it looks anything up: a request
    whose roles are absent or not an array, or hold a value other than
    'user' and 'admin', is passed on as an AppError with status 400 and no
    operation is issued and nothing logged. *)
Theorem changeUserRole_validates_before_lookup
    (db : UserDb) (req : UserReq.t) (s : Accounts) :
  UserReq.roles req = None
  \/ (exists roles v, UserReq.roles req = Some roles /\ In v roles
                      /\ v <> JStr "user" /\ v <> JStr "admin") ->
  exists reason, changeUserRole db req s = (Next (AppError reason 400), s).
Proof.
  unfold changeUserRole. usr. intros [->|(roles & v & -> & Hin & Hu & Ha)].
  - by eexists.
  - pose proof (invalid_role_is_found roles v Hin Hu Ha) as Hne.
    destruct (List.filter _ roles) as [|x rest] eqn:Hf; [done|].
    cbn [length Nat.ltb Nat.leb]. by eexists.
Qed.

Lemma changeUserRole_validates_before_lookup_witness :
  exists reason,
    changeUserRole usersDb
      {| UserReq.user := Some alice; UserReq.id := "64b000000000000000000002";
         UserReq.roles := Some [JStr "admin"; JStr "root"] |} noAccounts
    = (Next (AppError reason 400), noAccounts).
Proof.
  apply (changeUserRole_validates_before_lookup usersDb
           {| UserReq.user := Some alice; UserReq.id := "64b000000000000000000002";
              UserReq.roles := Some [JStr "admin"; JStr "root"] |} noAccounts).
  right. exists [JStr "admin"; JStr "root"], (JStr "root").
  split; [reflexivity|]. split; [right; left; reflexivity|].
  split; discriminate.
Defined.

(** X22. deleteUser deletes anything only for an account that exists and is
    not the requester's own.  It first deletes the tasks owned by that
    account, selected by its [_id] as owner, and issues the deletion of the
    account, by the identifier of the request, only once that has
    succeeded. *)
Theorem deleteUser_spares_the_requester
    (db : UserDb) (req : UserReq.t) (s : Accounts) (op : UserOp) :
  In op (userOpsOf (deleteUser db req) s) ->
  op <> UFindById (UserReq.id req) ->
  exists target me t m,
    ud_findById db (UserReq.id req) = Ok (Some target)
    /\ UserReq.user req = Some me
    /\ toString (User._id target) = Ok t
    /\ toString (User._id me) = Ok m
    /\ t <> m
    /\ (op = UDeleteTasks {[ "owner" := User._id target ]}
        \/ op = UFindByIdAndDelete (UserReq.id req)
           /\ ud_deleteTasks db {[ "owner" := User._id target ]} = Ok tt
           /\ userOpsOf (deleteUser db req) s
              = [UFindById (UserReq.id req);
                 UDeleteTasks {[ "owner" := User._id target ]};
                 UFindByIdAndDelete (UserReq.id req)]).
Proof.
  unfold userOpsOf, deleteUser. usr. intros Hin Hop.
  ucases; revert Hin; uops; intros Hin; among Hin.
  all: eexists _, _, _, _; split; [done|]; split; [done|]; split; [done|].
  all: split; [done|].
  all: split; [by match goal with H : String.eqb _ _ = false |- _ =>
                    apply String.eqb_neq in H end|].
  all: try (by left).
  all: repeat match goal with u : unit |- _ => destruct u end.
  all: right; split; [done|]; split; done.
Qed.

Lemma deleteUser_spares_the_requester_witness :
  In (UFindByIdAndDelete "64b000000000000000000002")
     (userOpsOf (deleteUser usersDb
                   {| UserReq.user := Some alice; UserReq.id := "64b000000000000000000002";
                      UserReq.roles := None |}) noAccounts)
  /\ exists target me t m,
       ud_findById usersDb "64b000000000000000000002" = Ok (Some target)
       /\ Some alice = Some me
       /\ toString (User._id target) = Ok t
       /\ toString (User._id me) = Ok m
       /\ t <> m.
Proof.
  assert (In (UFindByIdAndDelete "64b000000000000000000002")
            (userOpsOf (deleteUser usersDb
                          {| UserReq.user := Some alice;
                             UserReq.id := "64b000000000000000000002";
                             UserReq.roles := None |}) noAccounts)) as Hin
    by (right; right; left; vm_compute; reflexivity).
  split; [exact Hin|].
  destruct (deleteUser_spares_the_requester usersDb _ noAccounts _ Hin)
    as (target & me & t & m & Ht & Hu & Hs & Hm & Hne & _); [discriminate|].
  exists target, me, t, m. repeat (split; [assumption|]). exact Hne.
Defined.
